(** * godesktopgui: the page-render pipeline of [cmd/main.go]

    A shallow embedding of the program in [cmd/main.go]: the view model
    ([GuiData], [TableRow], [populateGuiData]), the page handler
    ([guiHandler]), template loading ([parseTemplate]) and the start-up
    sequence ([main]), together with the parts of the Go standard library
    the program is written against ([net/http]'s response writer, request
    multiplexer and file server, and the substitution and iteration
    directives of [html/template]).

    Go values are modelled as the program has them: [int] as [Z], [string]
    and byte content as [string], the [*GuiData] returned by
    [populateGuiData] as an index into a heap of [GuiData] objects, package
    level variables as the fields of one [World] record that every
    operation threads, and [log.Fatalf] and panics as distinguished
    outcomes of a computation. *)

From Stdlib Require Import ZArith String Ascii List Lia.
From stdpp Require Import base option list strings gmap pretty.

Open Scope Z_scope.
Open Scope string_scope.
Open Scope list_scope.

(* ===================================================================== *)
(** * 1. The data model: [TableRow] and [GuiData]                         *)
(* ===================================================================== *)

(** [type TableRow struct { File, Comment, Ago, Icon string }] *)
Record TableRow := mkTableRow {
  File : string;
  Comment : string;
  Ago : string;
  Icon : string
}.

(** [type GuiData struct { ... }], fields in declaration order. *)
Record GuiData := mkGuiData {
  Title : string;
  Unwatch : Z;
  Star : Z;
  Fork : Z;
  Commits : Z;
  Branch : Z;
  Release : Z;
  Contributor : Z;
  RowsInTable : list TableRow
}.

(** Go's zero value of [GuiData]: every field a composite literal does not
    key keeps this value. *)
Definition zeroGuiData : GuiData :=
  {| Title := EmptyString; Unwatch := 0; Star := 0; Fork := 0; Commits := 0;
     Branch := 0; Release := 0; Contributor := 0; RowsInTable := [] |}.

(** One keyed element [Field: value] of a [GuiData] composite literal, or
    the right-hand side of an assignment [g.Field = value]. *)
Inductive GuiDataKey :=
| KTitle (v : string)
| KUnwatch (v : Z)
| KStar (v : Z)
| KFork (v : Z)
| KCommits (v : Z)
| KBranch (v : Z)
| KRelease (v : Z)
| KContributor (v : Z)
| KRowsInTable (v : list TableRow).

(** [g.Field = value] *)
Definition setKey (g : GuiData) (k : GuiDataKey) : GuiData :=
  match k with
  | KTitle v =>
      mkGuiData v (Unwatch g) (Star g) (Fork g) (Commits g) (Branch g)
        (Release g) (Contributor g) (RowsInTable g)
  | KUnwatch v =>
      mkGuiData (Title g) v (Star g) (Fork g) (Commits g) (Branch g)
        (Release g) (Contributor g) (RowsInTable g)
  | KStar v =>
      mkGuiData (Title g) (Unwatch g) v (Fork g) (Commits g) (Branch g)
        (Release g) (Contributor g) (RowsInTable g)
  | KFork v =>
      mkGuiData (Title g) (Unwatch g) (Star g) v (Commits g) (Branch g)
        (Release g) (Contributor g) (RowsInTable g)
  | KCommits v =>
      mkGuiData (Title g) (Unwatch g) (Star g) (Fork g) v (Branch g)
        (Release g) (Contributor g) (RowsInTable g)
  | KBranch v =>
      mkGuiData (Title g) (Unwatch g) (Star g) (Fork g) (Commits g) v
        (Release g) (Contributor g) (RowsInTable g)
  | KRelease v =>
      mkGuiData (Title g) (Unwatch g) (Star g) (Fork g) (Commits g) (Branch g)
        v (Contributor g) (RowsInTable g)
  | KContributor v =>
      mkGuiData (Title g) (Unwatch g) (Star g) (Fork g) (Commits g) (Branch g)
        (Release g) v (RowsInTable g)
  | KRowsInTable v =>
      mkGuiData (Title g) (Unwatch g) (Star g) (Fork g) (Commits g) (Branch g)
        (Release g) (Contributor g) v
  end.

(** [GuiData{k1, ..., kn}]: the zero value with the keyed fields set. *)
Definition compositeLit (keys : list GuiDataKey) : GuiData :=
  fold_left setKey keys zeroGuiData.

(** Which keys name one of the seven [int] counters, and which the
    [Branch] counter. *)
Definition isCounterKey (k : GuiDataKey) : bool :=
  match k with
  | KTitle _ | KRowsInTable _ => false
  | _ => true
  end.

Definition isBranchKey (k : GuiDataKey) : bool :=
  match k with
  | KBranch _ => true
  | _ => false
  end.

(** The seven counters of a [GuiData], in declaration order. *)
Definition counters (g : GuiData) : list Z :=
  [Unwatch g; Star g; Fork g; Commits g; Branch g; Release g; Contributor g].

(* ===================================================================== *)
(** * 2. Process state and the computations over it                       *)
(* ===================================================================== *)

(** ** Errors *)

(** A Go [error]. The two file-system classes are the ones [net/http]
    tells apart ([os.IsNotExist], [os.IsPermission]); every other error is
    its message. *)
Inductive error :=
| ErrNotExist (name : string)
| ErrPermission (name : string)
| ErrMsg (msg : string).

(** [err.Error()] *)
Definition errorText (e : error) : string :=
  match e with
  | ErrNotExist name => "open " +:+ name +:+ ": file does not exist"
  | ErrPermission name => "open " +:+ name +:+ ": permission denied"
  | ErrMsg msg => msg
  end.

Definition LF : string := String "010"%char EmptyString.
Definition QUOTE : string := String "034"%char EmptyString.

(** What a Go call returning [(value, error)] yields. *)
Inductive result (A : Type) :=
| Ok (a : A)
| Err (e : error).
Arguments Ok {A} a.
Arguments Err {A} e.

(** [strings.HasPrefix] and [strings.HasSuffix] *)
Definition HasPrefix (s pre : string) : bool := String.prefix pre s.

Definition HasSuffix (s suf : string) : bool :=
  let n := String.length s in
  let k := String.length suf in
  (k <=? n)%nat && String.eqb (String.substring (n - k) k s) suf.

(* ===================================================================== *)
(** * 3. [net/http]: response writer, file server, request matching       *)
(* ===================================================================== *)

Module http.

Definition StatusOK : Z := 200.
Definition StatusMovedPermanently : Z := 301.
Definition StatusForbidden : Z := 403.
Definition StatusNotFound : Z := 404.
Definition StatusInternalServerError : Z := 500.

(** The part of [*http.Request] the handlers read. The path is the
    canonical one: [ServeMux] answers any other spelling with a redirect
    before a handler runs. *)
Record Request := mkRequest {
  Method : string;
  Path : string;
  RawQuery : string
}.

(** [http.ResponseWriter]: the header map, the status line once it has
    been written ([None] before), and the bytes written so far. *)
Record ResponseWriter := mkResponseWriter {
  Header : gmap string string;
  status : option Z;
  body : string
}.

Definition newResponseWriter : ResponseWriter :=
  mkResponseWriter ∅ None EmptyString.

(** [w.Header().Set(k, v)] *)
Definition HeaderSet (w : ResponseWriter) (k v : string) : ResponseWriter :=
  mkResponseWriter (<[k := v]> (Header w)) (status w) (body w).

(** [w.WriteHeader(code)]: only one header may be written; a later call is
    superfluous (the server logs it) and changes nothing. *)
Definition WriteHeader (w : ResponseWriter) (code : Z) : ResponseWriter :=
  match status w with
  | Some _ => w
  | None => mkResponseWriter (Header w) (Some code) (body w)
  end.

(** [w.Write(p)]: if [WriteHeader] has not been called, the first [Write]
    triggers an implicit [WriteHeader(http.StatusOK)]. *)
Definition Write (w : ResponseWriter) (p : string) : ResponseWriter :=
  let w1 := WriteHeader w StatusOK in
  mkResponseWriter (Header w1) (status w1) (body w1 +:+ p).

(** [http.Error(w, err, code)] *)
Definition Error (w : ResponseWriter) (err : string) (code : Z)
  : ResponseWriter :=
  let w1 := HeaderSet w "Content-Type" "text/plain; charset=utf-8" in
  let w2 := HeaderSet w1 "X-Content-Type-Options" "nosniff" in
  let w3 := WriteHeader w2 code in
  Write w3 (err +:+ LF).

(** [http.NotFound(w, r)] *)
Definition NotFound (w : ResponseWriter) (r : Request) : ResponseWriter :=
  Error w "404 page not found" StatusNotFound.

(** What the client receives once the handler has returned: a handler that
    never wrote a header gets the implicit 200. *)
Record Response := mkResponse {
  StatusCode : Z;
  Body : string
}.

Definition finishRequest (w : ResponseWriter) : Response :=
  mkResponse (default StatusOK (status w)) (body w).

(** [http.File], as far as the program uses it: what reading it to the end
    gives. *)
Record File := mkFile {
  ReadAll : result string
}.

(** The interface [http.FileSystem]: one method, [Open]. *)
Record FileSystem := mkFileSystem {
  Open : string -> result File
}.

(** [toHTTPError] of [net/http/fs.go] *)
Definition toHTTPError (err : error) : string * Z :=
  match err with
  | ErrNotExist _ => ("404 page not found", StatusNotFound)
  | ErrPermission _ => ("403 Forbidden", StatusForbidden)
  | ErrMsg _ => ("500 Internal Server Error", StatusInternalServerError)
  end.

(** [localRedirect]: a redirect that keeps the query string. *)
Definition localRedirect (w : ResponseWriter) (r : Request) (newPath : string)
  : ResponseWriter :=
  let target :=
    if String.eqb (RawQuery r) EmptyString then newPath
    else newPath +:+ "?" +:+ RawQuery r in
  WriteHeader (HeaderSet w "Location" target) StatusMovedPermanently.

(** [serveFile] for a file system of plain files (the asset store has no
    directories) and a request without conditional or range headers: a
    path ending in [/index.html] is redirected to its directory before the
    file system is consulted, a failed [Open] becomes the error response
    [toHTTPError] chooses, and a file is sent whole with status 200 (for
    [HEAD], without its content). *)
Definition serveFile (w : ResponseWriter) (r : Request) (fs : FileSystem)
    (name : string) : ResponseWriter :=
  if HasSuffix (Path r) "/index.html" then localRedirect w r "./"
  else
    match Open fs name with
    | Err err => let '(msg, code) := toHTTPError err in Error w msg code
    | Ok f =>
        match ReadAll f with
        | Err err => Error w (errorText err) StatusInternalServerError
        | Ok content =>
            let w1 := WriteHeader w StatusOK in
            if String.eqb (Method r) "HEAD" then w1 else Write w1 content
        end
    end.

(** [http.FileServer(root).ServeHTTP(w, r)] *)
Definition FileServer_ServeHTTP (root : FileSystem) (w : ResponseWriter)
    (r : Request) : ResponseWriter :=
  let upath :=
    if HasPrefix (Path r) "/" then Path r else "/" +:+ Path r in
  serveFile w r root upath.

(** [ServeMux]: the registered patterns with their handlers, in
    registration order. A pattern ending in [/] names a subtree, any other
    pattern a single path. *)
Definition pathMatch (pattern path : string) : bool :=
  if HasSuffix pattern "/" then HasPrefix path pattern
  else String.eqb pattern path.

(** The pattern that wins for [path]: an exact match if there is one,
    otherwise the longest subtree pattern that is a prefix of the path. *)
Definition longer {H : Type} (best : option (string * H)) (e : string * H)
  : option (string * H) :=
  match best with
  | None => Some e
  | Some b =>
      if (String.length (fst b) <? String.length (fst e))%nat
      then Some e else Some b
  end.

Definition muxMatch {H : Type} (m : list (string * H)) (path : string)
  : option H :=
  match List.find (fun e => String.eqb (fst e) path) m with
  | Some e => Some (snd e)
  | None =>
      let subtrees :=
        List.filter
          (fun e => HasSuffix (fst e) "/" && HasPrefix path (fst e)) m in
      option_map snd (fold_left longer subtrees None)
  end.

End http.

(* ===================================================================== *)
(** * 4. [html/template]: substitution and iteration                      *)
(* ===================================================================== *)

Module template.

(** The parse tree of a template, for the directives the page uses: literal
    text, a field of the current value ([{{.Field}}]) and iteration over a
    field ([{{range .Field}} body {{end}}]). *)
Inductive Node :=
| TextNode (text : string)
| FieldNode (field : string)
| RangeNode (field : string) (body : list Node).

(** [*template.Template]: a named parse tree. *)
Record Template := mkTemplate {
  Name : string;
  Tree : list Node
}.

(** The value the cursor [.] stands for: the [*GuiData] handed to
    [ExecuteTemplate], or inside a [range] the current [TableRow]. *)
Inductive Dot :=
| DData (g : GuiData)
| DRow (r : TableRow).

(** What a field evaluates to. *)
Inductive Value :=
| VString (s : string)
| VInt (n : Z)
| VRows (rows : list TableRow).

Definition typeName (dot : Dot) : string :=
  match dot with
  | DData _ => "*main.GuiData"
  | DRow _ => "main.TableRow"
  end.

(** The exported fields of the value under the cursor, by name. *)
Definition fields (dot : Dot) : list (string * Value) :=
  match dot with
  | DData g =>
      [("Title", VString (Title g));
       ("Unwatch", VInt (Unwatch g));
       ("Star", VInt (Star g));
       ("Fork", VInt (Fork g));
       ("Commits", VInt (Commits g));
       ("Branch", VInt (Branch g));
       ("Release", VInt (Release g));
       ("Contributor", VInt (Contributor g));
       ("RowsInTable", VRows (RowsInTable g))]
  | DRow r =>
      [("File", VString (File r));
       ("Comment", VString (Comment r));
       ("Ago", VString (Ago r));
       ("Icon", VString (Icon r))]
  end.

(** [evalField]: a field the value does not have is an execution error. *)
Definition evalField (dot : Dot) (field : string) : result Value :=
  match List.find (fun e => String.eqb (fst e) field) (fields dot) with
  | Some e => Ok (snd e)
  | None =>
      Err (ErrMsg ("can't evaluate field " +:+ field +:+ " in type "
                   +:+ typeName dot))
  end.

(** [fmt.Sprint] of a row and of a field value. *)
Definition printRow (r : TableRow) : string :=
  "{" +:+ File r +:+ " " +:+ Comment r +:+ " " +:+ Ago r +:+ " "
  +:+ Icon r +:+ "}".

Definition printValue (v : Value) : string :=
  match v with
  | VString s => s
  | VInt n => pretty n
  | VRows rows => "[" +:+ String.concat " " (List.map printRow rows) +:+ "]"
  end.

(** The escaper [html/template] puts after every action in HTML text:
    its replacement table for the characters that are special there. *)
Definition htmlReplacement (c : ascii) : string :=
  if Ascii.eqb c "000" then
    String "239" (String "191" (String "189" EmptyString))
  else if Ascii.eqb c "034" then "&#34;"
  else if Ascii.eqb c "&" then "&amp;"
  else if Ascii.eqb c "'" then "&#39;"
  else if Ascii.eqb c "+" then "&#43;"
  else if Ascii.eqb c "<" then "&lt;"
  else if Ascii.eqb c ">" then "&gt;"
  else String c EmptyString.

Fixpoint htmlEscaper (s : string) : string :=
  match s with
  | EmptyString => EmptyString
  | String c rest => htmlReplacement c +:+ htmlEscaper rest
  end.

(** [state.walk]: execute one node against the cursor, writing to the
    response writer as it goes. As the documentation of [Execute] has it:
    if an error occurs executing the template, execution stops, but
    partial results may already have been written to the output writer. *)
Fixpoint walk (n : Node) (dot : Dot) (wr : http.ResponseWriter)
  : http.ResponseWriter * option error :=
  match n with
  | TextNode text => (http.Write wr text, None)
  | FieldNode field =>
      match evalField dot field with
      | Err e => (wr, Some e)
      | Ok v => (http.Write wr (htmlEscaper (printValue v)), None)
      end
  | RangeNode field body =>
      match evalField dot field with
      | Err e => (wr, Some e)
      | Ok (VRows rows) =>
          (fix oneIteration (rows : list TableRow) (wr : http.ResponseWriter)
             : http.ResponseWriter * option error :=
             match rows with
             | [] => (wr, None)
             | r :: rest =>
                 match
                   (fix walkBody (ns : list Node) (wr : http.ResponseWriter)
                      : http.ResponseWriter * option error :=
                      match ns with
                      | [] => (wr, None)
                      | m :: ms =>
                          match walk m (DRow r) wr with
                          | (wr1, None) => walkBody ms wr1
                          | stopped => stopped
                          end
                      end) body wr
                 with
                 | (wr1, None) => oneIteration rest wr1
                 | stopped => stopped
                 end
             end) rows wr
      | Ok v =>
          (wr, Some (ErrMsg ("range can't iterate over " +:+ printValue v)))
      end
  end.

(** A list of nodes, executed in order. *)
Fixpoint walkList (ns : list Node) (dot : Dot) (wr : http.ResponseWriter)
  : http.ResponseWriter * option error :=
  match ns with
  | [] => (wr, None)
  | m :: ms =>
      match walk m dot wr with
      | (wr1, None) => walkList ms dot wr1
      | stopped => stopped
      end
  end.

(** [walkRange] over a slice: the body once per element, in slice order,
    with the cursor on the element. *)
Fixpoint walkRange (body : list Node) (rows : list TableRow)
    (wr : http.ResponseWriter) : http.ResponseWriter * option error :=
  match rows with
  | [] => (wr, None)
  | r :: rest =>
      match walkList body (DRow r) wr with
      | (wr1, None) => walkRange body rest wr1
      | stopped => stopped
      end
  end.

(** [t.ExecuteTemplate(wr, name, data)]: the template associated with [t]
    that has the given name, applied to [data]. *)
Definition ExecuteTemplate (t : Template) (wr : http.ResponseWriter)
    (name : string) (data : Dot) : http.ResponseWriter * option error :=
  if String.eqb name (Name t) then walkList (Tree t) data wr
  else
    (wr, Some (ErrMsg ("html/template: " +:+ QUOTE +:+ name +:+ QUOTE
                       +:+ " is undefined"))).

(** What a list of nodes writes, taken on its own. *)
Definition output (ns : list Node) (dot : Dot) : string :=
  http.body (fst (walkList ns dot http.newResponseWriter)).


End template.

(* ===================================================================== *)
(** * 5. The process: package-level state and computations                *)
(* ===================================================================== *)

(** A [*GuiData]: the index of the object in the heap. *)
Definition Ptr := nat.

(** The handlers [main] registers. *)
Inductive Handler :=
| FileServer (root : http.FileSystem)
| HandlerFunc_guiHandler.

(** Everything that outlives a call: the [GuiData] objects allocated so
    far, the package variable [htmlTemplate] ([nil] until [main] assigns
    it), the compiled-in file system [generate.CompiledFileSystem], the
    routes of [http.DefaultServeMux], the address the listener serves on,
    the URLs handed to the browser, and the log. *)
Record World := mkWorld {
  heap : list GuiData;
  htmlTemplate : option template.Template;
  CompiledFileSystem : http.FileSystem;
  DefaultServeMux : list (string * Handler);
  listening : option string;
  browserOpened : list string;
  logOutput : list string
}.

Definition with_heap (h : list GuiData) (s : World) : World :=
  mkWorld h (htmlTemplate s) (CompiledFileSystem s) (DefaultServeMux s)
    (listening s) (browserOpened s) (logOutput s).

Definition with_htmlTemplate (t : option template.Template) (s : World)
  : World :=
  mkWorld (heap s) t (CompiledFileSystem s) (DefaultServeMux s)
    (listening s) (browserOpened s) (logOutput s).

Definition with_DefaultServeMux (m : list (string * Handler)) (s : World)
  : World :=
  mkWorld (heap s) (htmlTemplate s) (CompiledFileSystem s) m
    (listening s) (browserOpened s) (logOutput s).

Definition with_listening (a : option string) (s : World) : World :=
  mkWorld (heap s) (htmlTemplate s) (CompiledFileSystem s) (DefaultServeMux s)
    a (browserOpened s) (logOutput s).

Definition with_browserOpened (u : list string) (s : World) : World :=
  mkWorld (heap s) (htmlTemplate s) (CompiledFileSystem s) (DefaultServeMux s)
    (listening s) u (logOutput s).

Definition with_logOutput (l : list string) (s : World) : World :=
  mkWorld (heap s) (htmlTemplate s) (CompiledFileSystem s) (DefaultServeMux s)
    (listening s) (browserOpened s) l.

(** The process as the program image starts it. *)
Definition initWorld (fs : http.FileSystem) : World :=
  mkWorld [] None fs [] None [] [].

(** How a computation ends: it returns, the process exits ([os.Exit],
    reached through [log.Fatalf]), or it panics. *)
Inductive Outcome (A : Type) :=
| Ret (a : A) (s : World)
| Exited (code : Z) (s : World)
| Panicked (msg : string) (s : World).
Arguments Ret {A} a s.
Arguments Exited {A} code s.
Arguments Panicked {A} msg s.

Definition worldOf {A : Type} (o : Outcome A) : World :=
  match o with
  | Ret _ s | Exited _ s | Panicked _ s => s
  end.

Definition Go (A : Type) : Type := World -> Outcome A.

Definition ret {A : Type} (a : A) : Go A := fun s => Ret a s.

Definition bind {A B : Type} (c : Go A) (k : A -> Go B) : Go B :=
  fun s =>
    match c s with
    | Ret a s1 => k a s1
    | Exited code s1 => Exited code s1
    | Panicked msg s1 => Panicked msg s1
    end.

Notation "x <- c ;; k" := (bind c (fun x => k))
  (at level 100, c at next level, right associativity).
Notation "c ;;; k" := (bind c (fun _ => k))
  (at level 100, right associativity).

Definition gets {A : Type} (f : World -> A) : Go A := fun s => Ret (f s) s.
Definition modify (f : World -> World) : Go unit := fun s => Ret tt (f s).
Definition panic {A : Type} (msg : string) : Go A := fun s => Panicked msg s.

(** [log.Fatalf(msg)]: print, then [os.Exit(1)]. Deferred calls do not
    run. *)
Definition log_Fatalf {A : Type} (msg : string) : Go A :=
  fun s => Exited 1 (with_logOutput (logOutput s ++ [msg]) s).

(** ** The heap of [GuiData] objects *)

(** [&GuiData{...}]: a new object, at a fresh address. *)
Definition new (g : GuiData) : Go Ptr :=
  fun s => Ret (length (heap s)) (with_heap (heap s ++ [g]) s).

(** [*p] *)
Definition load (p : Ptr) : Go GuiData :=
  fun s =>
    match heap s !! p with
    | Some g => Ret g s
    | None => Panicked "invalid memory address or nil pointer dereference" s
    end.

(** [p.Field = value] *)
Definition assign (p : Ptr) (k : GuiData -> GuiDataKey) : Go unit :=
  g <- load p ;;
  modify (fun s => with_heap (<[p := setKey g (k g)]> (heap s)) s).

(* ===================================================================== *)
(** * 6. The view model builder                                           *)
(* ===================================================================== *)

(** The keyed elements of the composite literal in [populateGuiData]. *)
Definition guiDataLiteral : list GuiDataKey :=
  [ KTitle "Golang Standalone GUI Example";
    KUnwatch 3;
    KStar 0;
    KFork 2;
    KCommits 31;
    KRelease 1;
    KContributor 1;
    KRowsInTable [] ].

(** [guiData.RowsInTable = append(guiData.RowsInTable, row)] *)
Definition appendRow (guiData : Ptr) (row : TableRow) : Go unit :=
  assign guiData (fun g => KRowsInTable (RowsInTable g ++ [row])).

(** [func populateGuiData() *GuiData] *)
Definition populateGuiData : Go Ptr :=
  guiData <- new (compositeLit guiDataLiteral) ;;
  appendRow guiData
    (mkTableRow "do_this.go" "Initial commit" "1 month ago" "file") ;;;
  appendRow guiData
    (mkTableRow "do_that.go" "Initial commit" "1 month ago" "file") ;;;
  appendRow guiData
    (mkTableRow "index.go" "Initial commit" "1 month ago" "file") ;;;
  appendRow guiData
    (mkTableRow "resources" "Initial commit" "2 months ago" "folder-open") ;;;
  appendRow guiData
    (mkTableRow "docs" "Initial commit" "2 months ago" "folder-open") ;;;
  ret guiData.

(* ===================================================================== *)
(** * 7. The page handler and the request dispatcher                      *)
(* ===================================================================== *)

(** [func guiHandler(w http.ResponseWriter, r *http.Request)]; the value
    returned is the response writer as the handler leaves it. *)
Definition guiHandler (w : http.ResponseWriter) (r : http.Request)
  : Go http.ResponseWriter :=
  dynamicData <- populateGuiData ;;
  t <- gets htmlTemplate ;;
  match t with
  | None => panic "invalid memory address or nil pointer dereference"
  | Some t =>
      data <- load dynamicData ;;
      let '(w1, err) :=
        template.ExecuteTemplate t w "gui" (template.DData data) in
      match err with
      | Some e =>
          ret (http.Error w1 (errorText e) http.StatusInternalServerError)
      | None => ret w1
      end
  end.

(** [ServeHTTP] of a registered handler. *)
Definition ServeHTTP (h : Handler) (w : http.ResponseWriter)
    (r : http.Request) : Go http.ResponseWriter :=
  match h with
  | FileServer root => ret (http.FileServer_ServeHTTP root w r)
  | HandlerFunc_guiHandler => guiHandler w r
  end.

(** [http.DefaultServeMux.ServeHTTP]: the handler of the matching pattern,
    or [http.NotFound] when no pattern matches. *)
Definition ServeMux_ServeHTTP (w : http.ResponseWriter) (r : http.Request)
  : Go http.ResponseWriter :=
  mux <- gets DefaultServeMux ;;
  match http.muxMatch mux (http.Path r) with
  | Some h => ServeHTTP h w r
  | None => ret (http.NotFound w r)
  end.

(** One request, as the server started by [http.ListenAndServe(addr, nil)]
    handles it: a fresh response writer, the default multiplexer, and the
    response finished when the handler returns. A handler that panics is
    recovered by the server: the connection is dropped without a response
    and the process goes on. Without a listener there is no connection and
    no response. *)
Definition serve (r : http.Request) : Go (option http.Response) :=
  fun s =>
    match listening s with
    | None => Ret None s
    | Some _ =>
        match ServeMux_ServeHTTP http.newResponseWriter r s with
        | Ret w s1 => Ret (Some (http.finishRequest w)) s1
        | Exited code s1 => Exited code s1
        | Panicked _ s1 => Ret None s1
        end
    end.

(** A sequence of requests, one after the other; the responses in request
    order. *)
Fixpoint serveAll (rs : list http.Request) : Go (list (option http.Response)) :=
  match rs with
  | [] => ret []
  | r :: rest =>
      resp <- serve r ;;
      resps <- serveAll rest ;;
      ret (resp :: resps)
  end.

(* ===================================================================== *)
(** * 8. Start-up: [parseTemplate] and [main]                             *)
(* ===================================================================== *)

(** What the process finds outside itself when [main] runs: whether the
    listener can be started and whether a browser can be launched. *)
Record Env := mkEnv {
  listenErr : option error;
  openURLErr : option error
}.

(** [http.Handle(pattern, handler)] on the default multiplexer; registering
    the empty pattern or a pattern twice panics. *)
Definition http_Handle (pattern : string) (h : Handler) : Go unit :=
  mux <- gets DefaultServeMux ;;
  if String.eqb pattern EmptyString then panic "http: invalid pattern"
  else if existsb (fun e => String.eqb (fst e) pattern) mux
  then panic ("http: multiple registrations for " +:+ pattern)
  else modify (with_DefaultServeMux (mux ++ [(pattern, h)])).

(** [go func() { err := http.ListenAndServe(addr, nil); if err != nil {
    log.Fatalf(...) } }()]: the listener either serves on [addr] from now
    on, or its failure ends the process. *)
Definition go_ListenAndServe (env : Env) (addr : string) : Go unit :=
  match listenErr env with
  | Some err => log_Fatalf ("http.ListenAndServe: " +:+ errorText err)
  | None => modify (with_listening (Some addr))
  end.

(** [err := browser.OpenURL(url); if err != nil { log.Fatalf(...) }] *)
Definition browser_OpenURL (env : Env) (url : string) : Go unit :=
  match openURLErr env with
  | Some err => log_Fatalf ("browser.Open: " +:+ errorText err)
  | None => modify (fun s => with_browserOpened (browserOpened s ++ [url]) s)
  end.

Section Startup.

(** [template.New(name).Parse(text)], the parser of [html/template]: the
    parse tree of the text, or an error. *)
Variable Parse : string -> result (list template.Node).

(** [func parseTemplate() *template.Template] *)
Definition parseTemplate : Go template.Template :=
  let fName := "files/templates/maingui.html" in
  fs <- gets CompiledFileSystem ;;
  match http.Open fs fName with
  | Err err =>
      log_Fatalf ("Failed to open <" +:+ fName +:+ ">: " +:+ errorText err)
  | Ok file =>
      match http.ReadAll file with
      | Err err =>
          log_Fatalf ("Failed to read contents of file: " +:+ errorText err)
      | Ok contents =>
          match Parse contents with
          | Err err =>
              log_Fatalf ("Failed to parse template: " +:+ errorText err)
          | Ok tree => ret (template.mkTemplate "gui" tree)
          end
      end
  end.

(** [func main()], up to the point where the main goroutine parks on the
    channel: the result [Ret tt s] is the process with its listener
    serving, which is how it stays until it is killed. The steps are taken
    in program order; [time.Sleep] changes nothing the model records, and
    the outcome of the listener goroutine is taken where it is started. *)
Definition main (env : Env) : Go unit :=
  t <- parseTemplate ;;
  modify (with_htmlTemplate (Some t)) ;;;
  fs <- gets CompiledFileSystem ;;
  http_Handle "/files/" (FileServer fs) ;;;
  http_Handle "/thegui" HandlerFunc_guiHandler ;;;
  go_ListenAndServe env ":8080" ;;;
  browser_OpenURL env "http://127.0.0.1:8080/thegui" ;;;
  ret tt.

End Startup.

(* ===================================================================== *)
(** * 9. The asset store                                                  *)
(* ===================================================================== *)

Module AssetStore.

(** Modelled from the spec: the package [generate], which provides
    [generate.CompiledFileSystem], is not among the sources. The spec
    describes it as an immutable mapping from logical file path to byte
    content, keyed by path strings such as [files/templates/maingui.html],
    populated once at build time, with the contract
    [get(path) -> bytes | NotFound]. *)
Inductive Lookup :=
| Bytes (content : string)
| NotFound.

(** Modelled from the spec: [get(path) -> bytes | NotFound]. *)
Definition get (store : gmap string string) (path : string) : Lookup :=
  match store !! path with
  | Some content => Bytes content
  | None => NotFound
  end.

(** Modelled from the spec: population at build time, one insertion per
    bundled file, in bundling order. *)
Definition populate (assets : list (string * string)) : gmap string string :=
  fold_left (fun store a => <[fst a := snd a]> store) assets ∅.

(** Modelled from the spec: the logical path a rooted name stands for. The
    program opens [files/templates/maingui.html], the file server opens
    the request path [/files/...]; both name the same stored document. *)
Definition logicalPath (name : string) : string :=
  match name with
  | String "/" rest => rest
  | _ => name
  end.

(** Modelled from the spec: the store presented as an [http.FileSystem].
    A stored document always reads back whole. *)
Definition asFileSystem (store : gmap string string) : http.FileSystem :=
  http.mkFileSystem
    (fun name =>
       match get store (logicalPath name) with
       | Bytes content => Ok (http.mkFile (Ok content))
       | NotFound => Err (ErrNotExist name)
       end).

End AssetStore.

(* ===================================================================== *)
(** * 10. A parser for the modelled directives, and sample documents      *)
(* ===================================================================== *)

(** The properties below hold for every parser. To run the program on
    concrete documents this section gives one for the directives of
    section 4, written [{{.Field}}], [{{range .Field}}] and [{{end}}]. *)
Module fragment.

Inductive Token :=
| TText (s : string)
| TAction (s : string).

Definition emit (tok : Token) (r : result (list Token)) : result (list Token) :=
  match r with
  | Ok toks => Ok (tok :: toks)
  | Err e => Err e
  end.

Definition emitText (acc : string) (r : result (list Token))
  : result (list Token) :=
  if String.eqb acc EmptyString then r else emit (TText acc) r.

Definition snoc (acc : string) (c : ascii) : string :=
  acc +:+ String c EmptyString.

Fixpoint lex (inAction : bool) (acc : string) (s : string)
  : result (list Token) :=
  match s with
  | EmptyString =>
      if inAction then Err (ErrMsg "template: gui: unclosed action")
      else emitText acc (Ok [])
  | String c rest =>
      match rest with
      | String d rest' =>
          if negb inAction && Ascii.eqb c "{" && Ascii.eqb d "{"
          then emitText acc (lex true EmptyString rest')
          else if inAction && Ascii.eqb c "}" && Ascii.eqb d "}"
          then emit (TAction acc) (lex false EmptyString rest')
          else lex inAction (snoc acc c) rest
      | EmptyString => lex inAction (snoc acc c) rest
      end
  end.

Definition dropPrefix (n : nat) (s : string) : string :=
  String.substring n (String.length s - n) s.

Fixpoint build (toks : list Token) (cur : list template.Node)
    (open : list (string * list template.Node))
  : result (list template.Node) :=
  match toks with
  | [] =>
      match open with
      | [] => Ok (rev cur)
      | _ => Err (ErrMsg "template: gui: unexpected EOF")
      end
  | TText s :: ts => build ts (template.TextNode s :: cur) open
  | TAction a :: ts =>
      if String.eqb a "end" then
        match open with
        | [] => Err (ErrMsg "template: gui: unexpected {{end}}")
        | (field, outer) :: open' =>
            build ts (template.RangeNode field (rev cur) :: outer) open'
        end
      else if HasPrefix a "range ." then
        build ts [] ((dropPrefix 7 a, cur) :: open)
      else if HasPrefix a "." then
        build ts (template.FieldNode (dropPrefix 1 a) :: cur) open
      else
        Err (ErrMsg ("template: gui: unexpected " +:+ QUOTE +:+ a +:+ QUOTE
                     +:+ " in command"))
  end.

Definition Parse (text : string) : result (list template.Node) :=
  match lex false EmptyString text with
  | Ok toks => build toks [] []
  | Err e => Err e
  end.

End fragment.

Definition GET (path : string) : http.Request :=
  http.mkRequest "GET" path EmptyString.

(** A page with a heading, a counter and one table row per [TableRow]. *)
Definition pageDocument : string :=
  "<h1>{{.Title}}</h1><p>{{.Commits}} commits</p><table>"
  +:+ "{{range .RowsInTable}}<tr><td>{{.File}}</td><td>{{.Ago}}</td></tr>{{end}}"
  +:+ "</table>".

(** A page that parses, and refers to a field [GuiData] does not have. *)
Definition staleDocument : string :=
  "<h1>{{.Title}}</h1><p>{{.Stars}} stars</p>".

(** A page whose very first directive refers to such a field. *)
Definition staleFromStartDocument : string :=
  "{{.Stars}}<h1>{{.Title}}</h1>".

Definition siteAssets (page : string) : list (string * string) :=
  [("files/templates/maingui.html", page);
   ("files/css/site.css", "body { margin: 0 }")].

(** The process started on a store holding the given page, in an
    environment where the listener and the browser both start. *)
Definition startedOn (page : string) : World :=
  worldOf
    (main fragment.Parse (mkEnv None None)
       (initWorld
          (AssetStore.asFileSystem (AssetStore.populate (siteAssets page))))).

(** A file system on which the template document opens and then fails to
    read. *)
Definition unreadableFS : http.FileSystem :=
  http.mkFileSystem
    (fun name => Ok (http.mkFile (Err (ErrMsg "unexpected EOF")))).

(* ===================================================================== *)
(** * 11. Reference values and predicates of the properties               *)
(* ===================================================================== *)

(** The five rows and the view model as the builder's literals give them. *)
Definition fixedRows : list TableRow :=
  [ mkTableRow "do_this.go" "Initial commit" "1 month ago" "file";
    mkTableRow "do_that.go" "Initial commit" "1 month ago" "file";
    mkTableRow "index.go" "Initial commit" "1 month ago" "file";
    mkTableRow "resources" "Initial commit" "2 months ago" "folder-open";
    mkTableRow "docs" "Initial commit" "2 months ago" "folder-open" ].

Definition fixedGuiData : GuiData :=
  {| Title := "Golang Standalone GUI Example";
     Unwatch := 3; Star := 0; Fork := 2; Commits := 31; Branch := 0;
     Release := 1; Contributor := 1;
     RowsInTable := fixedRows |}.


(** [sub] occurs in [s]. *)
Definition contains (s sub : string) : Prop :=
  exists pre post : string, s = pre +:+ sub +:+ post.

(** The state [main] leaves the process in when start-up succeeds: the
    parsed template named [gui] in [htmlTemplate], the two routes, and the
    listener on port 8080. *)
Definition Serving (s : World) (t : template.Template) : Prop :=
  htmlTemplate s = Some t /\
  template.Name t = "gui" /\
  DefaultServeMux s =
    [("/files/", FileServer (CompiledFileSystem s));
     ("/thegui", HandlerFunc_guiHandler)] /\
  listening s = Some ":8080".

(** What one execution adds to a response writer that already holds
    [wr]: the bytes after those of [wr], and the status line unless [wr]
    already has one. *)
Definition extend (wr added : http.ResponseWriter) : http.ResponseWriter :=
  http.mkResponseWriter (http.Header wr)
    (match http.status wr with
     | Some code => Some code
     | None => http.status added
     end)
    (http.body wr +:+ http.body added).



(** The sentence "on every page request on which the template render
    fails, the response is the 500-equivalent error response", over every
    serving process. *)
Definition every_render_error_is_500 : Prop :=
  forall (s : World) (t : template.Template) (r : http.Request)
         (wr : http.ResponseWriter) (e : error),
    Serving s t ->
    http.Path r = "/thegui" ->
    template.ExecuteTemplate t http.newResponseWriter "gui"
      (template.DData fixedGuiData) = (wr, Some e) ->
    exists resp s',
      serve r s = Ret (Some resp) s' /\
      http.StatusCode resp = http.StatusInternalServerError.

(** An execution only appends: on a writer that already holds something it
    does what it does on a new one, after what is there; and the only
    status line it can cause is the implicit 200 of a first [Write]. *)
Definition appends (run : http.ResponseWriter -> http.ResponseWriter * option error)
  : Prop :=
  (forall wr,
     run wr = (extend wr (fst (run http.newResponseWriter)),
               snd (run http.newResponseWriter))) /\
  default http.StatusOK (http.status (fst (run http.newResponseWriter)))
    = http.StatusOK.

(** A computation leaves the component [f] of the process as it was,
    however it ends. *)
Definition preserves {A B : Type} (f : World -> B) (c : Go A) : Prop :=
  forall s, f (worldOf (c s)) = f s.


(** The parse tree of [staleDocument]. *)
Definition staleTemplate : template.Template :=
  template.mkTemplate "gui"
    [template.TextNode "<h1>"; template.FieldNode "Title";
     template.TextNode "</h1><p>"; template.FieldNode "Stars";
     template.TextNode " stars</p>"].

(** What rendering [staleTemplate] leaves in a new writer, and the error
    it ends with. *)
Definition staleRendered : http.ResponseWriter :=
  fst (template.ExecuteTemplate staleTemplate http.newResponseWriter "gui"
         (template.DData fixedGuiData)).

Definition staleError : error :=
  ErrMsg "can't evaluate field Stars in type *main.GuiData".

(** The parse tree of [pageDocument]: what precedes the iteration, the
    markup of one row, and what follows. *)
Definition pagePre : list template.Node :=
  [template.TextNode "<h1>"; template.FieldNode "Title";
   template.TextNode "</h1><p>"; template.FieldNode "Commits";
   template.TextNode " commits</p><table>"].

Definition pageRowBody : list template.Node :=
  [template.TextNode "<tr><td>"; template.FieldNode "File";
   template.TextNode "</td><td>"; template.FieldNode "Ago";
   template.TextNode "</td></tr>"].

Definition pagePost : list template.Node :=
  [template.TextNode "</table>"].

Definition pageTemplate : template.Template :=
  template.mkTemplate "gui"
    (pagePre ++ template.RangeNode "RowsInTable" pageRowBody :: pagePost).

(** What rendering [pageTemplate] leaves in a new writer. *)
Definition pageRendered : http.ResponseWriter :=
  fst (template.ExecuteTemplate pageTemplate http.newResponseWriter "gui"
         (template.DData fixedGuiData)).

(** The template document cannot be loaded from [fs]: it cannot be opened,
    or it opens and cannot be read, or it reads and does not parse. *)
Definition templatePath : string := "files/templates/maingui.html".

Definition templateUnavailable
    (Parse : string -> result (list template.Node)) (fs : http.FileSystem)
  : Prop :=
  (exists e, http.Open fs templatePath = Err e) \/
  (exists f e,
     http.Open fs templatePath = Ok f /\ http.ReadAll f = Err e) \/
  (exists f text e,
     http.Open fs templatePath = Ok f /\ http.ReadAll f = Ok text /\
     Parse text = Err e).

(** The names of the fields of [GuiData] and of [TableRow]. *)
Definition GuiDataFields : list string :=
  ["Title"; "Unwatch"; "Star"; "Fork"; "Commits"; "Branch"; "Release";
   "Contributor"; "RowsInTable"].

Definition TableRowFields : list string := ["File"; "Comment"; "Ago"; "Icon"].

(** A node of a [range] body that refers to nothing a [TableRow] lacks.
    A nested [range] always does: the fields of a row are strings. *)
Definition rowNodeOk (n : template.Node) : bool :=
  match n with
  | template.TextNode _ => true
  | template.FieldNode field => existsb (String.eqb field) TableRowFields
  | template.RangeNode _ _ => false
  end.

(** A node of a page that refers to nothing [GuiData] lacks: a field of
    [GuiData], or an iteration over its one slice with a body that is fine
    on rows. *)
Definition pageNodeOk (n : template.Node) : bool :=
  match n with
  | template.TextNode _ => true
  | template.FieldNode field => existsb (String.eqb field) GuiDataFields
  | template.RangeNode field body =>
      String.eqb field "RowsInTable" && forallb rowNodeOk body
  end.

Definition refersToKnownFields (tree : list template.Node) : bool :=
  forallb pageNodeOk tree.

(** A node of a [range] body that refers to a field [TableRow] lacks. *)
Definition rowNodeUnknown (n : template.Node) : bool :=
  match n with
  | template.TextNode _ => false
  | template.FieldNode field | template.RangeNode field _ =>
      negb (existsb (String.eqb field) TableRowFields)
  end.

(** A node of a page that refers to a field [GuiData] lacks, or that
    iterates [RowsInTable] with a body referring to a field [TableRow]
    lacks. *)
Definition pageNodeUnknown (n : template.Node) : bool :=
  match n with
  | template.TextNode _ => false
  | template.FieldNode field =>
      negb (existsb (String.eqb field) GuiDataFields)
  | template.RangeNode field body =>
      negb (existsb (String.eqb field) GuiDataFields)
      || (String.eqb field "RowsInTable" && existsb rowNodeUnknown body)
  end.

Definition refersToUnknownField (tree : list template.Node) : bool :=
  existsb pageNodeUnknown tree.

(** The routes and the state [main] builds on the state [s] when every
    step succeeds and the document parses to [tree]. *)
Definition served (tree : list template.Node) (s : World) : World :=
  mkWorld (heap s) (Some (template.mkTemplate "gui" tree))
    (CompiledFileSystem s)
    [("/files/", FileServer (CompiledFileSystem s));
     ("/thegui", HandlerFunc_guiHandler)]
    (Some ":8080")
    (browserOpened s ++ ["http://127.0.0.1:8080/thegui"])
    (logOutput s).

(* ===================================================================== *)
(** * 12. Strings and response writers                                    *)
(* ===================================================================== *)

Lemma append_cons (c : ascii) (s t : string) :
  String c s +:+ t = String c (s +:+ t).
Proof. reflexivity. Qed.

Lemma append_nil_l (s : string) : EmptyString +:+ s = s.
Proof. reflexivity. Qed.

Lemma append_nil_r (s : string) : s +:+ EmptyString = s.
Proof.
  induction s as [|c s IH]; [reflexivity |].
  now rewrite append_cons, IH.
Qed.

Lemma append_assoc (a b c : string) : (a +:+ b) +:+ c = a +:+ (b +:+ c).
Proof.
  induction a as [|x a IH]; [reflexivity |].
  now rewrite !append_cons, IH.
Qed.

Lemma contains_refl (s : string) : contains s s.
Proof. exists EmptyString, EmptyString. now rewrite append_nil_l, append_nil_r. Qed.

Lemma contains_append_l (s sub post : string) :
  contains s sub -> contains (s +:+ post) sub.
Proof.
  intros (p & q & ->). exists p, (q +:+ post).
  now rewrite !append_assoc.
Qed.

Lemma contains_append_r (s sub pre : string) :
  contains s sub -> contains (pre +:+ s) sub.
Proof.
  intros (p & q & ->). exists (pre +:+ p), q.
  now rewrite !append_assoc.
Qed.

Lemma extend_new_r (wr : http.ResponseWriter) :
  extend wr http.newResponseWriter = wr.
Proof.
  destruct wr as [h st b]. unfold extend. simpl.
  rewrite append_nil_r. now destruct st.
Qed.

Lemma extend_new_l (wr : http.ResponseWriter) :
  http.Header wr = ∅ -> extend http.newResponseWriter wr = wr.
Proof. destruct wr as [h st b]. unfold extend. simpl. now intros ->. Qed.

Lemma extend_assoc (a b c : http.ResponseWriter) :
  extend (extend a b) c = extend a (extend b c).
Proof.
  destruct a as [ha sa ba], b as [hb sb bb], c as [hc sc bc].
  unfold extend. simpl. rewrite append_assoc.
  now destruct sa, sb.
Qed.

Lemma Write_extend (wr : http.ResponseWriter) (p : string) :
  http.Write wr p = extend wr (http.Write http.newResponseWriter p).
Proof.
  destruct wr as [h st b]. unfold http.Write, http.WriteHeader, extend.
  simpl. destruct st; reflexivity.
Qed.

Lemma Write_body (wr : http.ResponseWriter) (p : string) :
  http.body (http.Write wr p) = http.body wr +:+ p.
Proof.
  destruct wr as [h [c|] b]; reflexivity.
Qed.

Lemma Write_Header (wr : http.ResponseWriter) (p : string) :
  http.Header (http.Write wr p) = http.Header wr.
Proof.
  destruct wr as [h [c|] b]; reflexivity.
Qed.

Lemma Write_status (wr : http.ResponseWriter) (p : string) :
  http.status (http.Write wr p) = Some (default http.StatusOK (http.status wr)).
Proof.
  destruct wr as [h [c|] b]; reflexivity.
Qed.

Lemma Error_body (wr : http.ResponseWriter) (msg : string) (code : Z) :
  http.body (http.Error wr msg code) = http.body wr +:+ msg +:+ LF.
Proof.
  destruct wr as [h [c|] b]; reflexivity.
Qed.


(* ===================================================================== *)
(** * 13. Template execution                                              *)
(* ===================================================================== *)

Import template.

(** Induction over parse trees, with the hypothesis available for every
    node of a [range] body. *)
Lemma Node_nested_ind (P : Node -> Prop) :
  (forall text, P (TextNode text)) ->
  (forall field, P (FieldNode field)) ->
  (forall field body, Forall P body -> P (RangeNode field body)) ->
  forall n, P n.
Proof.
  intros HText HField HRange. fix IH 1. intros [text | field | field body].
  - apply HText.
  - apply HField.
  - apply HRange. induction body as [|m ms IHms].
    + constructor.
    + constructor; [apply IH | apply IHms].
Qed.

(** The two loops inside [walk] are [walkList] and [walkRange]. *)
Lemma walk_RangeNode (field : string) (body : list Node) (dot : Dot)
    (wr : http.ResponseWriter) :
  walk (RangeNode field body) dot wr =
  match evalField dot field with
  | Err e => (wr, Some e)
  | Ok (VRows rows) => walkRange body rows wr
  | Ok v => (wr, Some (ErrMsg ("range can't iterate over " +:+ printValue v)))
  end.
Proof.
  simpl. destruct (evalField dot field) as [[s | n | rows] | e];
    try reflexivity.
  revert wr. induction rows as [|r rest IHrows]; intros wr; [reflexivity |].
  simpl.
  assert (Hbody : forall ns w,
    (fix walkBody (ns : list Node) (wr : http.ResponseWriter)
       : http.ResponseWriter * option error :=
       match ns with
       | [] => (wr, None)
       | m :: ms =>
           match walk m (DRow r) wr with
           | (wr1, None) => walkBody ms wr1
           | stopped => stopped
           end
       end) ns w = walkList ns (DRow r) w).
  { induction ns as [|m ms IHns]; intros w; [reflexivity |].
    simpl. destruct (walk m (DRow r) w) as [w1 [e|]]; [reflexivity |].
    apply IHns. }
  rewrite Hbody.
  destruct (walkList body (DRow r) wr) as [w1 [e|]]; [reflexivity |].
  apply IHrows.
Qed.

Lemma appends_ret : appends (fun wr => (wr, None)).
Proof. split; [| reflexivity]. intros wr. simpl. now rewrite extend_new_r. Qed.

Lemma appends_fail (e : error) : appends (fun wr => (wr, Some e)).
Proof. split; [| reflexivity]. intros wr. simpl. now rewrite extend_new_r. Qed.

Lemma appends_Write (p : string) : appends (fun wr => (http.Write wr p, None)).
Proof.
  split; [| reflexivity]. intros wr. simpl. now rewrite <- Write_extend.
Qed.

(** Two appending steps in sequence, the second only if the first did not
    stop. *)
Lemma appends_seq
    (first next : http.ResponseWriter -> http.ResponseWriter * option error) :
  appends first -> appends next ->
  appends (fun wr =>
             match first wr with
             | (wr1, None) => next wr1
             | stopped => stopped
             end).
Proof.
  intros [Hfirst Sfirst] [Hnext Snext]. split.
  - intros wr. rewrite (Hfirst wr).
    destruct (first http.newResponseWriter) as [a [e|]]; simpl;
      [reflexivity |].
    rewrite (Hnext (extend wr a)), (Hnext a). simpl.
    now rewrite extend_assoc.
  - destruct (first http.newResponseWriter) as [a [e|]]; simpl in *;
      [exact Sfirst |].
    rewrite (Hnext a). simpl.
    destruct (http.status a); [exact Sfirst | exact Snext].
Qed.

Lemma walkList_appends (ns : list Node) (dot : Dot) :
  Forall (fun n => forall dot, appends (walk n dot)) ns ->
  appends (walkList ns dot).
Proof.
  induction 1 as [|m ms Hm _ IH]; [apply appends_ret |].
  exact (appends_seq (walk m dot) (walkList ms dot) (Hm dot) IH).
Qed.

Lemma walkRange_appends (body : list Node) (rows : list TableRow) :
  (forall dot, appends (walkList body dot)) ->
  appends (walkRange body rows).
Proof.
  intros Hbody. induction rows as [|r rest IH]; [apply appends_ret |].
  exact (appends_seq (walkList body (DRow r)) (walkRange body rest)
           (Hbody (DRow r)) IH).
Qed.

Lemma appends_ext
    (run run' : http.ResponseWriter -> http.ResponseWriter * option error) :
  (forall wr, run wr = run' wr) -> appends run' -> appends run.
Proof.
  intros Heq [H S]. split.
  - intros wr. rewrite !Heq. apply H.
  - now rewrite Heq.
Qed.

Lemma walk_appends (n : Node) (dot : Dot) : appends (walk n dot).
Proof.
  revert dot. induction n as [text | field | field body IH]
    using Node_nested_ind; intros dot.
  - apply appends_Write.
  - simpl. destruct (evalField dot field) as [v | e].
    + apply (appends_Write (htmlEscaper (printValue v))).
    + apply (appends_fail e).
  - apply (appends_ext _ _ (walk_RangeNode field body dot)).
    destruct (evalField dot field) as [[s | k | rows] | e].
    + apply appends_fail.
    + apply appends_fail.
    + apply walkRange_appends. intros dot'. now apply walkList_appends.
    + apply appends_fail.
Qed.

Lemma walkList_appends_all (ns : list Node) (dot : Dot) :
  appends (walkList ns dot).
Proof.
  apply walkList_appends, Forall_forall. intros n _ dot'. apply walk_appends.
Qed.

Lemma walkList_extend (ns : list Node) (dot : Dot) (wr : http.ResponseWriter) :
  walkList ns dot wr =
  (extend wr (fst (walkList ns dot http.newResponseWriter)),
   snd (walkList ns dot http.newResponseWriter)).
Proof. apply walkList_appends_all. Qed.

Lemma ExecuteTemplate_appends (t : Template) (name : string) (data : Dot) :
  appends (fun wr => ExecuteTemplate t wr name data).
Proof.
  unfold ExecuteTemplate. destruct (String.eqb name (Name t)).
  - apply walkList_appends_all.
  - apply appends_fail.
Qed.




(** A field action that was executed left the escaped text of the field
    in the output. *)
Lemma output_contains_field (ns : list Node) (dot : Dot) (field : string)
    (v : Value) :
  snd (walkList ns dot http.newResponseWriter) = None ->
  In (FieldNode field) ns ->
  evalField dot field = Ok v ->
  contains (output ns dot) (htmlEscaper (printValue v)).
Proof.
  intros Hok Hin Hv. induction ns as [|m ms IH]; [destruct Hin |].
  unfold output in *. simpl in Hok |- *.
  destruct (walk m dot http.newResponseWriter) as [a [e|]] eqn:Hm;
    [discriminate |].
  rewrite (walkList_extend ms dot a) in Hok |- *. simpl in Hok |- *.
  destruct Hin as [-> | Hin].
  - simpl in Hm. rewrite Hv in Hm. injection Hm as <-.
    apply contains_append_l. rewrite Write_body. apply contains_refl.
  - apply contains_append_r, IH; assumption.
Qed.

(* ===================================================================== *)
(** * 14. The view model builder                                          *)
(* ===================================================================== *)

Lemma bind_Ret {A B : Type} (c : Go A) (k : A -> Go B) (s s1 : World) (a : A) :
  c s = Ret a s1 -> bind c k s = k a s1.
Proof. unfold bind. now intros ->. Qed.

(** Appending a row to the object allocated last. *)
Lemma appendRow_last (h : list GuiData) (g : GuiData) (row : TableRow)
    (s : World) :
  heap s = h ++ [g] ->
  appendRow (length h) row s =
  Ret tt (with_heap (h ++ [setKey g (KRowsInTable (RowsInTable g ++ [row]))]) s).
Proof.
  intros Hheap. unfold appendRow, assign, bind, load, modify.
  rewrite Hheap, list_lookup_middle by reflexivity.
  cbv beta. rewrite Hheap, insert_app_r_alt by lia.
  now rewrite Nat.sub_diag.
Qed.

(** The builder, in one equation: a new object holding the fixed view
    model, appended to the heap, and nothing else. *)
Lemma populateGuiData_eq (s : World) :
  populateGuiData s =
  Ret (length (heap s)) (with_heap (heap s ++ [fixedGuiData]) s).
Proof.
  unfold populateGuiData.
  rewrite (bind_Ret _ _ s (with_heap (heap s ++ [compositeLit guiDataLiteral]) s)
             (length (heap s)) eq_refl).
  repeat (erewrite bind_Ret; [| apply appendRow_last; reflexivity]).
  reflexivity.
Qed.

(* ===================================================================== *)
(** * 15. The page handler and the dispatcher                             *)
(* ===================================================================== *)

Lemma with_heap_id (s : World) : with_heap (heap s) s = s.
Proof. now destruct s. Qed.

Lemma heap_with_heap (h : list GuiData) (s : World) : heap (with_heap h s) = h.
Proof. reflexivity. Qed.

(** The handler, in one equation: it renders the fixed view model with the
    template in [htmlTemplate], and on an error calls [http.Error] on the
    writer as the execution left it. *)
Lemma guiHandler_eq (w : http.ResponseWriter) (r : http.Request) (s : World)
    (t : Template) :
  htmlTemplate s = Some t ->
  guiHandler w r s =
  Ret (let '(w1, err) := ExecuteTemplate t w "gui" (DData fixedGuiData) in
       match err with
       | Some e => http.Error w1 (errorText e) http.StatusInternalServerError
       | None => w1
       end)
      (with_heap (heap s ++ [fixedGuiData]) s).
Proof.
  intros Ht. unfold guiHandler.
  rewrite (bind_Ret _ _ _ _ _ (populateGuiData_eq s)).
  unfold bind, gets, load. cbn [htmlTemplate with_heap heap]. rewrite Ht.
  rewrite heap_with_heap, list_lookup_middle by reflexivity.
  destruct (ExecuteTemplate t w "gui" (DData fixedGuiData)) as [w1 [e|]];
    reflexivity.
Qed.

(** Without a template the handler panics, after the builder has run. *)
Lemma guiHandler_nil (w : http.ResponseWriter) (r : http.Request) (s : World) :
  htmlTemplate s = None ->
  guiHandler w r s =
  Panicked "invalid memory address or nil pointer dereference"
    (with_heap (heap s ++ [fixedGuiData]) s).
Proof.
  intros Ht. unfold guiHandler.
  rewrite (bind_Ret _ _ _ _ _ (populateGuiData_eq s)).
  unfold bind, gets. cbn [htmlTemplate with_heap]. now rewrite Ht.
Qed.

(** Serving a request always gives the process back: it never ends it, and
    all it can change is the heap. *)
Lemma serve_total (r : http.Request) (s : World) :
  exists resp h, serve r s = Ret resp (with_heap h s).
Proof.
  unfold serve. destruct (listening s) as [addr|].
  2:{ exists None, (heap s). now rewrite with_heap_id. }
  unfold ServeMux_ServeHTTP, bind, gets.
  destruct (http.muxMatch (DefaultServeMux s) (http.Path r)) as [[root|]|].
  - simpl. eexists _, (heap s). now rewrite with_heap_id.
  - simpl. destruct (htmlTemplate s) as [t|] eqn:Ht.
    + rewrite (guiHandler_eq _ _ _ _ Ht). now eexists _, _.
    + rewrite (guiHandler_nil _ _ _ Ht). now eexists _, _.
  - simpl. eexists _, (heap s). now rewrite with_heap_id.
Qed.

Lemma serveAll_total (rs : list http.Request) (s : World) :
  exists resps h, serveAll rs s = Ret resps (with_heap h s).
Proof.
  revert s. induction rs as [|r rest IH]; intros s.
  - exists [], (heap s). simpl. unfold ret. now rewrite with_heap_id.
  - simpl. destruct (serve_total r s) as (resp & h & Hr).
    rewrite (bind_Ret _ _ _ _ _ Hr).
    destruct (IH (with_heap h s)) as (resps & h' & Hrest).
    rewrite (bind_Ret _ _ _ _ _ Hrest). now exists (resp :: resps), h'.
Qed.

Lemma Serving_with_heap (s : World) (t : Template) (h : list GuiData) :
  Serving s t -> Serving (with_heap h s) t.
Proof. intros H. exact H. Qed.

(** A page request on a serving process. *)
Lemma serve_page (s : World) (t : Template) (r : http.Request) :
  Serving s t ->
  http.Path r = "/thegui" ->
  serve r s =
  Ret (Some
         (http.finishRequest
            (let '(w1, err) :=
               ExecuteTemplate t http.newResponseWriter "gui"
                 (DData fixedGuiData) in
             match err with
             | Some e =>
                 http.Error w1 (errorText e) http.StatusInternalServerError
             | None => w1
             end)))
      (with_heap (heap s ++ [fixedGuiData]) s).
Proof.
  intros (Ht & _ & Hmux & Hl) Hpath. unfold serve. rewrite Hl.
  unfold ServeMux_ServeHTTP, bind, gets. rewrite Hmux, Hpath.
  change (http.muxMatch _ "/thegui") with (Some HandlerFunc_guiHandler).
  simpl. now rewrite (guiHandler_eq _ _ _ _ Ht).
Qed.

(** ** Computations that leave one component of the process alone *)

Lemma preserves_ret {A B : Type} (f : World -> B) (a : A) :
  preserves f (ret a).
Proof. intros s. reflexivity. Qed.

Lemma preserves_gets {A B : Type} (f : World -> B) (g : World -> A) :
  preserves f (gets g).
Proof. intros s. reflexivity. Qed.

Lemma preserves_panic {A B : Type} (f : World -> B) (msg : string) :
  preserves f (@panic A msg).
Proof. intros s. reflexivity. Qed.

Lemma preserves_modify {B : Type} (f : World -> B) (g : World -> World) :
  (forall s, f (g s) = f s) -> preserves f (modify g).
Proof. intros H s. apply H. Qed.

Lemma preserves_Fatalf {A B : Type} (f : World -> B) (msg : string) :
  (forall l s, f (with_logOutput l s) = f s) -> preserves f (@log_Fatalf A msg).
Proof. intros H s. apply H. Qed.

Lemma preserves_bind {A B C : Type} (f : World -> C) (c : Go A)
    (k : A -> Go B) :
  preserves f c -> (forall a, preserves f (k a)) -> preserves f (bind c k).
Proof.
  intros Hc Hk s. unfold bind. specialize (Hc s).
  destruct (c s) as [a s1 | code s1 | msg s1]; simpl in *.
  - now rewrite Hk.
  - exact Hc.
  - exact Hc.
Qed.

(* ===================================================================== *)
(** * 16. Start-up                                                        *)
(* ===================================================================== *)

Section StartupProperties.

Variable Parse : string -> result (list Node).

(** [parseTemplate] either returns the template named [gui] and leaves the
    process as it was, or ends the process with exit code 1 and one more
    log line. *)
Lemma parseTemplate_cases (s : World) :
  (exists tree, parseTemplate Parse s = Ret (mkTemplate "gui" tree) s) \/
  (exists msg,
     parseTemplate Parse s = Exited 1 (with_logOutput (logOutput s ++ [msg]) s)).
Proof.
  unfold parseTemplate, bind, gets.
  destruct (http.Open (CompiledFileSystem s) _) as [f | e].
  2:{ right. now eexists. }
  destruct (http.ReadAll f) as [text | e].
  2:{ right. now eexists. }
  destruct (Parse text) as [tree | e].
  - left. now exists tree.
  - right. now eexists.
Qed.

(** Every way [main] can end leaves the compiled-in file system as it
    was. *)
Lemma main_CompiledFileSystem (env : Env) (s : World) :
  CompiledFileSystem (worldOf (main Parse env s)) = CompiledFileSystem s.
Proof.
  apply (preserves_bind CompiledFileSystem).
  { intros s0. destruct (parseTemplate_cases s0) as [[tree ->] | [msg ->]];
      reflexivity. }
  intros t. unfold http_Handle, go_ListenAndServe, browser_OpenURL.
  repeat first
    [ apply preserves_bind; [| intros ?]
    | apply preserves_ret | apply preserves_gets | apply preserves_panic
    | apply preserves_Fatalf; reflexivity
    | apply preserves_modify; reflexivity
    | match goal with
      | |- preserves _ (if ?b then _ else _) => destruct b
      | |- preserves _ (match ?o with Some _ => _ | None => _ end) =>
          destruct o
      end ].
Qed.

(** When [main] gets as far as parking, the process is serving. *)
Lemma main_Serving (env : Env) (s s' : World) :
  DefaultServeMux s = [] ->
  main Parse env s = Ret tt s' ->
  exists t, Serving s' t /\ CompiledFileSystem s' = CompiledFileSystem s
            /\ heap s' = heap s.
Proof.
  intros Hmux. unfold main.
  destruct (parseTemplate_cases s) as [[tree Hp] | [msg Hp]].
  2:{ unfold bind at 1. now rewrite Hp. }
  rewrite (bind_Ret _ _ _ _ _ Hp).
  unfold http_Handle, go_ListenAndServe, browser_OpenURL.
  unfold bind, modify, gets, log_Fatalf, panic, ret.
  cbn [DefaultServeMux with_htmlTemplate CompiledFileSystem].
  rewrite Hmux. cbn.
  destruct (listenErr env); [discriminate |].
  destruct (openURLErr env); [discriminate |].
  intros [= <-]. exists (mkTemplate "gui" tree).
  repeat split.
Qed.

End StartupProperties.

(* ===================================================================== *)
(** * 17. The view model                                                  *)
(* ===================================================================== *)

(** C1. [populateGuiData] takes no input and cannot fail: from every state
    of the process it returns a pointer to a new object holding the same
    fixed view model (the title, the seven counters, the five literal
    rows), and it has no other effect: the objects that existed keep their
    values and nothing but the heap changes. *)
Theorem populateGuiData_fixed_value (s : World) :
  exists (p : Ptr) (s' : World),
    populateGuiData s = Ret p s' /\
    heap s' !! p = Some fixedGuiData /\
    heap s !! p = None /\
    (forall q g, heap s !! q = Some g -> heap s' !! q = Some g) /\
    s' = with_heap (heap s') s /\
    Title fixedGuiData = "Golang Standalone GUI Example" /\
    counters fixedGuiData = [3; 0; 2; 31; 0; 1; 1] /\
    List.map File (RowsInTable fixedGuiData)
      = ["do_this.go"; "do_that.go"; "index.go"; "resources"; "docs"].
Proof.
  exists (length (heap s)), (with_heap (heap s ++ [fixedGuiData]) s).
  split; [apply populateGuiData_eq |].
  split; [now apply list_lookup_middle |].
  split; [now apply lookup_ge_None_2 |].
  split; [| repeat split].
  intros q g Hq. rewrite heap_with_heap. now apply lookup_app_l_Some.
Qed.

(** C9. The composite literal of [populateGuiData] keys six of the seven
    counters and not [Branch], and nothing assigns [Branch] afterwards:
    in every view model the builder returns, [Branch] has Go's zero
    value 0. *)
Theorem populateGuiData_Branch_zero (s : World) :
  exists (p : Ptr) (s' : World) (g : GuiData),
    populateGuiData s = Ret p s' /\
    heap s' !! p = Some g /\
    Branch g = 0 /\
    Branch g = Branch zeroGuiData /\
    existsb isBranchKey guiDataLiteral = false /\
    length (List.filter isCounterKey guiDataLiteral) = 6%nat /\
    length (counters g) = 7%nat.
Proof.
  exists (length (heap s)), (with_heap (heap s ++ [fixedGuiData]) s),
    fixedGuiData.
  split; [apply populateGuiData_eq |].
  split; [now apply list_lookup_middle |].
  repeat split.
Qed.

(* ===================================================================== *)
(** * 18. Rendering                                                       *)
(* ===================================================================== *)

Lemma evalField_RowsInTable (g : GuiData) :
  evalField (DData g) "RowsInTable" = Ok (VRows (RowsInTable g)).
Proof. reflexivity. Qed.

Lemma evalField_File (r : TableRow) :
  evalField (DRow r) "File" = Ok (VString (File r)).
Proof. reflexivity. Qed.


(** C4. The bytes an execution writes and the error it ends with depend on
    the template and the view model only: two executions of the same
    template on the same view model, on whatever writers, append the same
    bytes and end the same way. *)
Theorem render_twice_same_output
    (t : Template) (name : string) (g : GuiData)
    (wr1 wr2 wr1' wr2' : http.ResponseWriter) (e1 e2 : option error) :
  ExecuteTemplate t wr1 name (DData g) = (wr1', e1) ->
  ExecuteTemplate t wr2 name (DData g) = (wr2', e2) ->
  e1 = e2 /\
  exists out : string,
    http.body wr1' = http.body wr1 +:+ out /\
    http.body wr2' = http.body wr2 +:+ out.
Proof.
  destruct (ExecuteTemplate_appends t name (DData g)) as [Happ _].
  rewrite (Happ wr1), (Happ wr2). intros [= <- <-] [= <- <-].
  split; [reflexivity |]. now eexists.
Qed.

(** Two page requests in a row get the same response. *)
Lemma page_request_repeatable (s s1 s2 : World) (t : Template)
    (r1 r2 : http.Request) (resp1 resp2 : option http.Response) :
  Serving s t ->
  http.Path r1 = "/thegui" -> http.Path r2 = "/thegui" ->
  serve r1 s = Ret resp1 s1 ->
  serve r2 s1 = Ret resp2 s2 ->
  resp1 = resp2.
Proof.
  intros Hs H1 H2. rewrite (serve_page s t r1 Hs H1). intros [= <- <-].
  rewrite (serve_page _ t r2 (Serving_with_heap _ _ _ Hs) H2).
  now intros [= <- _].
Qed.

(** C3. On a serving process, a request for [/thegui] whose rendering
    succeeds is answered with status 200 and the rendered bytes. The view
    model handed to the renderer has the title "Golang Standalone GUI
    Example" and 31 commits, and a template that shows the title, or the
    commits counter, puts that text in the body. *)
Theorem page_request_status_and_content
    (s : World) (t : Template) (r : http.Request) (wr : http.ResponseWriter) :
  Serving s t ->
  http.Path r = "/thegui" ->
  ExecuteTemplate t http.newResponseWriter "gui" (DData fixedGuiData)
    = (wr, None) ->
  (exists s', serve r s = Ret (Some (http.mkResponse 200 (http.body wr))) s') /\
  Title fixedGuiData = "Golang Standalone GUI Example" /\
  Commits fixedGuiData = 31 /\
  (In (FieldNode "Title") (Tree t) ->
   contains (http.body wr) "Golang Standalone GUI Example") /\
  (In (FieldNode "Commits") (Tree t) -> contains (http.body wr) "31").
Proof.
  intros Hs Hpath Hrun.
  assert (Hstatus : default http.StatusOK (http.status wr) = 200).
  { destruct (ExecuteTemplate_appends t "gui" (DData fixedGuiData)) as [_ H].
    now rewrite Hrun in H. }
  split; [| split; [reflexivity | split; [reflexivity |]]].
  - eexists. rewrite (serve_page s t r Hs Hpath), Hrun.
    unfold http.finishRequest. now rewrite Hstatus.
  - destruct Hs as (_ & Hname & _). unfold ExecuteTemplate in Hrun.
    rewrite Hname in Hrun.
    change (walkList (Tree t) (DData fixedGuiData) http.newResponseWriter
            = (wr, None)) in Hrun.
    assert (Hbody : http.body wr = output (Tree t) (DData fixedGuiData)).
    { unfold output. now rewrite Hrun. }
    assert (Hok : snd (walkList (Tree t) (DData fixedGuiData)
                         http.newResponseWriter) = None).
    { now rewrite Hrun. }
    rewrite Hbody. split; intros Hin.
    + exact (output_contains_field _ _ "Title" (VString (Title fixedGuiData))
               Hok Hin eq_refl).
    + exact (output_contains_field _ _ "Commits" (VInt (Commits fixedGuiData))
               Hok Hin eq_refl).
Qed.

(** C10. When the rendering of a page request ends with an error, the
    handler appends the text of that error, followed by a newline, to
    whatever the rendering had written: the client reads [err.Error()]
    verbatim in the response body. *)
Theorem render_error_text_in_body
    (s : World) (t : Template) (r : http.Request) (w w1 : http.ResponseWriter)
    (e : error) :
  htmlTemplate s = Some t ->
  ExecuteTemplate t w "gui" (DData fixedGuiData) = (w1, Some e) ->
  exists (w2 : http.ResponseWriter) (s' : World),
    guiHandler w r s = Ret w2 s' /\
    w2 = http.Error w1 (errorText e) http.StatusInternalServerError /\
    http.body w2 = http.body w1 +:+ errorText e +:+ LF /\
    http.Body (http.finishRequest w2) = http.body w1 +:+ errorText e +:+ LF /\
    contains (http.Body (http.finishRequest w2)) (errorText e).
Proof.
  intros Ht Hrun. eexists _, _.
  split; [rewrite (guiHandler_eq w r s t Ht), Hrun; reflexivity |].
  split; [reflexivity |].
  split; [apply Error_body |].
  split; [apply Error_body |].
  cbn [http.Body http.finishRequest]. rewrite Error_body.
  now exists (http.body w1), LF.
Qed.



(** C5. The page [staleDocument] parses and refers, after its heading, to
    a field [GuiData] does not have. On the process started with it, the
    rendering of a page request fails, and the response the client gets
    has status 200, not 500: the heading had been written, with the
    implicit 200, before the failure, and the handler's
    [http.Error(..., 500)] comes after the status line. The body is the
    heading followed by the error text. *)
Theorem stale_page_error_response_is_200 :
  Serving (startedOn staleDocument) staleTemplate /\
  (exists wr e,
     ExecuteTemplate staleTemplate http.newResponseWriter "gui"
       (DData fixedGuiData) = (wr, Some e)) /\
  exists s',
    serve (GET "/thegui") (startedOn staleDocument) =
    Ret (Some (http.mkResponse 200
                 ("<h1>Golang Standalone GUI Example</h1><p>"
                  +:+ "can't evaluate field Stars in type *main.GuiData"
                  +:+ LF))) s'.
Proof.
  split; [repeat split; vm_compute; reflexivity |].
  split; [eexists _, _; vm_compute; reflexivity |].
  eexists. vm_compute. reflexivity.
Qed.

(** A render error is not always answered with the 500 error response:
    the sentence fails on the process started on [staleDocument]. *)
Lemma not_every_render_error_is_500 : ~ every_render_error_is_500.
Proof.
  intros H.
  destruct (H (startedOn staleDocument) staleTemplate (GET "/thegui")
              staleRendered staleError)
    as (resp & s' & Hserve & Hcode).
  - repeat split; vm_compute; reflexivity.
  - reflexivity.
  - vm_compute. reflexivity.
  - vm_compute in Hserve. injection Hserve as <- _. discriminate Hcode.
Qed.

(* ===================================================================== *)
(** * 19. Template loading                                                *)
(* ===================================================================== *)

(** C6. [parseTemplate] ends the process, with exit code 1, exactly when
    the template document cannot be opened, cannot be read, or does not
    parse; in every other case it returns the template and leaves the
    process as it was. On an asset store the document cannot be opened
    exactly when it is absent. When loading fails [main] ends there: no
    route is registered, no listener is started, no browser is opened.
    And no request ever ends the process. *)
Theorem template_loading_fatal_iff
    (Parse : string -> result (list Node)) (env : Env) (s : World) :
  ((exists code s', parseTemplate Parse s = Exited code s') <->
   templateUnavailable Parse (CompiledFileSystem s)) /\
  (templateUnavailable Parse (CompiledFileSystem s) ->
   exists s',
     parseTemplate Parse s = Exited 1 s' /\
     main Parse env s = Exited 1 s' /\
     listening s' = listening s /\
     DefaultServeMux s' = DefaultServeMux s /\
     htmlTemplate s' = htmlTemplate s /\
     browserOpened s' = browserOpened s) /\
  (~ templateUnavailable Parse (CompiledFileSystem s) ->
   exists tree, parseTemplate Parse s = Ret (mkTemplate "gui" tree) s) /\
  (forall store,
     CompiledFileSystem s = AssetStore.asFileSystem store ->
     ((exists e, http.Open (CompiledFileSystem s) templatePath = Err e) <->
      AssetStore.get store templatePath = AssetStore.NotFound)) /\
  (forall r s0 code s1, serve r s0 <> Exited code s1).
Proof.
  assert (Hcases :
    templateUnavailable Parse (CompiledFileSystem s) /\
    (exists msg, parseTemplate Parse s
                 = Exited 1 (with_logOutput (logOutput s ++ [msg]) s))
    \/
    ~ templateUnavailable Parse (CompiledFileSystem s) /\
    (exists tree, parseTemplate Parse s = Ret (mkTemplate "gui" tree) s)).
  { unfold templateUnavailable, parseTemplate, bind, gets.
    change "files/templates/maingui.html" with templatePath.
    destruct (http.Open (CompiledFileSystem s) templatePath) as [f | e].
    2:{ left. split; [left; now exists e | now eexists]. }
    destruct (http.ReadAll f) as [text | e] eqn:Hread.
    2:{ left. split; [right; left; now exists f, e | now eexists]. }
    destruct (Parse text) as [tree | e] eqn:Hparse.
    2:{ left. split; [right; right; now exists f, text, e | now eexists]. }
    right. split; [| now exists tree].
    intros [[e [=]] | [(f' & e & [= <-] & He)
                      | (f' & text' & e & [= <-] & Ht & He)]];
      congruence. }
  split; [| split; [| split; [| split]]].
  - split.
    + intros (code & s' & Hexit).
      destruct Hcases as [[H _] | [_ [tree Hret]]]; [exact H | congruence].
    + intros H. destruct Hcases as [[_ [msg Hexit]] | [Hnot _]];
        [eexists _, _; exact Hexit | contradiction].
  - intros H. destruct Hcases as [[_ [msg Hexit]] | [Hnot _]];
      [| contradiction].
    eexists. split; [exact Hexit |].
    split; [unfold main, bind; now rewrite Hexit |].
    repeat split.
  - intros H. destruct Hcases as [[H' _] | [_ Hret]];
      [contradiction | exact Hret].
  - intros store Hfs. rewrite Hfs.
    unfold AssetStore.asFileSystem. cbn [http.Open].
    change (AssetStore.logicalPath templatePath) with templatePath.
    destruct (AssetStore.get store templatePath) as [content|].
    + split; [intros [e [=]] | discriminate].
    + split; [reflexivity | intros _; now eexists].
  - intros r s0 code s1. destruct (serve_total r s0) as (resp & h & ->).
    discriminate.
Qed.

(* ===================================================================== *)
(** * 20. The asset store and the static route                            *)
(* ===================================================================== *)

(** Insertions of other paths do not change what a path maps to. *)
Lemma populate_other (after : list (string * string)) (path : string)
    (store : gmap string string) :
  ~ In path (List.map fst after) ->
  fold_left (fun store a => <[fst a := snd a]> store) after store !! path
  = store !! path.
Proof.
  revert store. induction after as [|[p c] rest IH]; intros store Hnot;
    [reflexivity |].
  simpl in *. rewrite IH by tauto.
  apply lookup_insert_ne. intros ->. tauto.
Qed.

Lemma serveAll_CompiledFileSystem (rs : list http.Request) (s : World) :
  CompiledFileSystem (worldOf (serveAll rs s)) = CompiledFileSystem s.
Proof. destruct (serveAll_total rs s) as (resps & h & ->). reflexivity. Qed.

(** C7. A path reads back the bytes of its last insertion at build time:
    [get] on the populated store returns exactly the content inserted
    for it. And the store is not mutated afterwards: whatever way [main]
    ends, and after any sequence of requests, the process holds the same
    store. *)
Theorem asset_store_round_trip
    (Parse : string -> result (list Node)) (env : Env)
    (before after : list (string * string)) (path content : string)
    (rs : list http.Request) (s : World) :
  ~ In path (List.map fst after) ->
  let store := AssetStore.populate (before ++ (path, content) :: after) in
  AssetStore.get store path = AssetStore.Bytes content /\
  (CompiledFileSystem s = AssetStore.asFileSystem store ->
   let s1 := worldOf (main Parse env s) in
   let s2 := worldOf (serveAll rs s1) in
   CompiledFileSystem s1 = AssetStore.asFileSystem store /\
   CompiledFileSystem s2 = AssetStore.asFileSystem store).
Proof.
  intros Hnot store. split.
  - unfold AssetStore.get, store, AssetStore.populate.
    rewrite fold_left_app. cbn [fold_left fst snd].
    rewrite populate_other by exact Hnot.
    now rewrite lookup_insert_eq.
  - intros Hfs s1 s2. subst s2 s1.
    now rewrite serveAll_CompiledFileSystem, main_CompiledFileSystem.
Qed.

(** A request path under [/files/] is [/files/] followed by something. *)
Lemma HasPrefix_files (path : string) :
  HasPrefix path "/files/" = true ->
  exists rest, path = "/files/" +:+ rest.
Proof.
  unfold HasPrefix. intros H.
  do 7 (destruct path as [|c path]; [discriminate H |];
        cbn [String.prefix] in H;
        match type of H with
        | (if ascii_dec ?a c then _ else _) = _ =>
            destruct (ascii_dec a c) as [<- | _]; [| discriminate H]
        end).
  now exists path.
Qed.

(** The routes of [main] send every path under [/files/] to the file
    server. *)
Lemma muxMatch_files (fileServer page : Handler) (path : string) :
  HasPrefix path "/files/" = true ->
  http.muxMatch [("/files/", fileServer); ("/thegui", page)] path
  = Some fileServer.
Proof.
  intros Hprefix. unfold http.muxMatch. cbn [List.find fst snd].
  destruct (String.eqb "/files/" path) eqn:E1; [reflexivity |].
  destruct (String.eqb "/thegui" path) eqn:E2.
  { apply String.eqb_eq in E2. subst path. discriminate Hprefix. }
  cbn [List.filter fst]. rewrite Hprefix.
  change (HasSuffix "/files/" "/") with true.
  change (HasSuffix "/thegui" "/") with false.
  reflexivity.
Qed.




(* ===================================================================== *)
(** * 21. The properties on concrete processes                            *)
(* ===================================================================== *)

(** The process started on [pageDocument] is serving [pageTemplate]. *)
Lemma startedOn_page_Serving : Serving (startedOn pageDocument) pageTemplate.
Proof. repeat split; vm_compute; reflexivity. Qed.


(** [page_request_status_and_content] on the process started on
    [pageDocument]. *)
Lemma page_request_status_and_content_witness :
  (Serving (startedOn pageDocument) pageTemplate /\
   http.Path (GET "/thegui") = "/thegui" /\
   ExecuteTemplate pageTemplate http.newResponseWriter "gui"
     (DData fixedGuiData) = (pageRendered, None)) /\
  (exists s',
     serve (GET "/thegui") (startedOn pageDocument)
     = Ret (Some (http.mkResponse 200 (http.body pageRendered))) s') /\
  contains (http.body pageRendered) "Golang Standalone GUI Example" /\
  contains (http.body pageRendered) "31".
Proof.
  assert (Hs : Serving (startedOn pageDocument) pageTemplate)
    by (repeat split; vm_compute; reflexivity).
  assert (Hrun : ExecuteTemplate pageTemplate http.newResponseWriter "gui"
                   (DData fixedGuiData) = (pageRendered, None))
    by (vm_compute; reflexivity).
  split; [split; [exact Hs | split; [reflexivity | exact Hrun]] |].
  destruct (page_request_status_and_content (startedOn pageDocument)
              pageTemplate (GET "/thegui") pageRendered Hs eq_refl Hrun)
    as (Hserve & _ & _ & Htitle & Hcommits).
  split; [exact Hserve |].
  split; [apply Htitle | apply Hcommits]; cbn; tauto.
Defined.

(** [render_twice_same_output] on [pageTemplate]: once on a new writer,
    once more on the writer the first execution filled. *)
Lemma render_twice_same_output_witness :
  (ExecuteTemplate pageTemplate http.newResponseWriter "gui"
     (DData fixedGuiData) = (pageRendered, None) /\
   ExecuteTemplate pageTemplate pageRendered "gui" (DData fixedGuiData)
   = (extend pageRendered pageRendered, None)) /\
  exists out : string,
    http.body pageRendered = http.body http.newResponseWriter +:+ out /\
    http.body (extend pageRendered pageRendered)
    = http.body pageRendered +:+ out.
Proof.
  assert (H1 : ExecuteTemplate pageTemplate http.newResponseWriter "gui"
                 (DData fixedGuiData) = (pageRendered, None))
    by (vm_compute; reflexivity).
  assert (H2 : ExecuteTemplate pageTemplate pageRendered "gui"
                 (DData fixedGuiData)
               = (extend pageRendered pageRendered, None))
    by (vm_compute; reflexivity).
  split; [split; [exact H1 | exact H2] |].
  exact (proj2 (render_twice_same_output pageTemplate "gui" fixedGuiData
                  http.newResponseWriter pageRendered pageRendered
                  (extend pageRendered pageRendered) None None H1 H2)).
Defined.

(** [render_error_text_in_body] on the process started on
    [staleDocument]. *)
Lemma render_error_text_in_body_witness :
  (htmlTemplate (startedOn staleDocument) = Some staleTemplate /\
   ExecuteTemplate staleTemplate http.newResponseWriter "gui"
     (DData fixedGuiData) = (staleRendered, Some staleError)) /\
  exists (w2 : http.ResponseWriter) (s' : World),
    guiHandler http.newResponseWriter (GET "/thegui")
      (startedOn staleDocument) = Ret w2 s' /\
    http.body w2
    = "<h1>Golang Standalone GUI Example</h1><p>"
      +:+ "can't evaluate field Stars in type *main.GuiData" +:+ LF.
Proof.
  assert (Ht : htmlTemplate (startedOn staleDocument) = Some staleTemplate)
    by (vm_compute; reflexivity).
  assert (Hrun : ExecuteTemplate staleTemplate http.newResponseWriter "gui"
                   (DData fixedGuiData) = (staleRendered, Some staleError))
    by (vm_compute; reflexivity).
  split; [split; [exact Ht | exact Hrun] |].
  destruct (render_error_text_in_body (startedOn staleDocument) staleTemplate
              (GET "/thegui") http.newResponseWriter staleRendered staleError
              Ht Hrun) as (w2 & s' & Hh & _ & Hbody & _).
  exists w2, s'. split; [exact Hh |]. rewrite Hbody. vm_compute. reflexivity.
Defined.

(** [asset_store_round_trip] on the store of [siteAssets]: the template
    document reads back, and the store outlives start-up and requests. *)
Lemma asset_store_round_trip_witness :
  ~ In "files/templates/maingui.html"
      (List.map fst [("files/css/site.css", "body { margin: 0 }")]) /\
  AssetStore.get (AssetStore.populate (siteAssets pageDocument))
    "files/templates/maingui.html" = AssetStore.Bytes pageDocument /\
  CompiledFileSystem
    (worldOf
       (serveAll [GET "/thegui"; GET "/files/css/site.css"]
          (startedOn pageDocument)))
  = AssetStore.asFileSystem (AssetStore.populate (siteAssets pageDocument)).
Proof.
  assert (Hnot : ~ In "files/templates/maingui.html"
                   (List.map fst [("files/css/site.css", "body { margin: 0 }")])).
  { intros [H | []]. discriminate H. }
  split; [exact Hnot |].
  destruct (asset_store_round_trip fragment.Parse (mkEnv None None) []
              [("files/css/site.css", "body { margin: 0 }")]
              "files/templates/maingui.html" pageDocument
              [GET "/thegui"; GET "/files/css/site.css"]
              (initWorld
                 (AssetStore.asFileSystem
                    (AssetStore.populate (siteAssets pageDocument))))
              Hnot) as [Hget Hkeep].
  split; [exact Hget |].
  exact (proj2 (Hkeep eq_refl)).
Defined.


(** [template_loading_fatal_iff] on a file system whose template document
    opens and cannot be read: start-up ends before anything is
    registered. *)
Lemma template_loading_fatal_iff_witness :
  templateUnavailable fragment.Parse unreadableFS /\
  exists s',
    main fragment.Parse (mkEnv None None) (initWorld unreadableFS)
    = Exited 1 s' /\
    listening s' = None /\ DefaultServeMux s' = [] /\ htmlTemplate s' = None.
Proof.
  assert (Hun : templateUnavailable fragment.Parse unreadableFS).
  { right. left. eexists _, _. split; reflexivity. }
  split; [exact Hun |].
  destruct (proj1 (proj2 (template_loading_fatal_iff fragment.Parse
                            (mkEnv None None) (initWorld unreadableFS))) Hun)
    as (s' & _ & Hmain & Hl & Hm & Ht & _).
  exists s'. repeat split; assumption.
Defined.

(** The error path as the handler intends it, on the process started on
    [staleFromStartDocument]: the rendering fails on its first directive,
    nothing has been written, and the response is the 500 error
    response. *)
Lemma stale_from_start_response_is_500 :
  exists s',
    serve (GET "/thegui") (startedOn staleFromStartDocument) =
    Ret (Some (http.mkResponse http.StatusInternalServerError
                 ("can't evaluate field Stars in type *main.GuiData"
                  +:+ LF))) s'.
Proof. eexists. vm_compute. reflexivity. Qed.

(* ===================================================================== *)
(** * 22. Start-up, step by step                                          *)
(* ===================================================================== *)

(** [parseTemplate], by what the file system and the parser answer. *)
Lemma parseTemplate_unfold (Parse : string -> result (list Node)) (s : World) :
  parseTemplate Parse s =
  match http.Open (CompiledFileSystem s) templatePath with
  | Err err =>
      Exited 1
        (with_logOutput
           (logOutput s
            ++ ["Failed to open <" +:+ templatePath +:+ ">: "
                +:+ errorText err]) s)
  | Ok file =>
      match http.ReadAll file with
      | Err err =>
          Exited 1
            (with_logOutput
               (logOutput s
                ++ ["Failed to read contents of file: " +:+ errorText err]) s)
      | Ok contents =>
          match Parse contents with
          | Err err =>
              Exited 1
                (with_logOutput
                   (logOutput s
                    ++ ["Failed to parse template: " +:+ errorText err]) s)
          | Ok tree => Ret (mkTemplate "gui" tree) s
          end
      end
  end.
Proof.
  unfold parseTemplate, bind, gets.
  change "files/templates/maingui.html" with templatePath.
  destruct (http.Open (CompiledFileSystem s) templatePath) as [f | e];
    [| reflexivity].
  destruct (http.ReadAll f) as [text | e]; [| reflexivity].
  destruct (Parse text); reflexivity.
Qed.

(** What [main] does once the template is loaded. *)
Lemma main_after_loading (Parse : string -> result (list Node)) (env : Env)
    (s : World) (tree : list Node) :
  DefaultServeMux s = [] ->
  parseTemplate Parse s = Ret (mkTemplate "gui" tree) s ->
  main Parse env s =
  match listenErr env with
  | Some err =>
      Exited 1
        (with_logOutput
           (logOutput s ++ ["http.ListenAndServe: " +:+ errorText err])
           (with_listening (listening s) (with_browserOpened (browserOpened s)
              (served tree s))))
  | None =>
      match openURLErr env with
      | Some err =>
          Exited 1
            (with_logOutput
               (logOutput s ++ ["browser.Open: " +:+ errorText err])
               (with_browserOpened (browserOpened s) (served tree s)))
      | None => Ret tt (served tree s)
      end
  end.
Proof.
  intros Hmux Hp. unfold main. rewrite (bind_Ret _ _ _ _ _ Hp).
  unfold http_Handle, go_ListenAndServe, browser_OpenURL.
  unfold bind, modify, gets, log_Fatalf, panic, ret.
  cbn [DefaultServeMux with_htmlTemplate CompiledFileSystem].
  rewrite Hmux. cbn.
  destruct (listenErr env); [reflexivity |].
  destruct (openURLErr env); reflexivity.
Qed.

(** X1. On a process with no route registered yet, [main] gets as far as
    parking exactly when the template document loads, the listener starts
    and the browser opens. The process is then in the state [served]: the
    parsed template in [htmlTemplate], the routes [/files/] and [/thegui]
    in this order, the listener on port 8080, the page URL handed to the
    browser, nothing logged and nothing allocated. *)
Theorem main_reaches_serving_iff
    (Parse : string -> result (list Node)) (env : Env) (s : World) :
  DefaultServeMux s = [] ->
  ((exists s', main Parse env s = Ret tt s') <->
   (~ templateUnavailable Parse (CompiledFileSystem s) /\
    listenErr env = None /\ openURLErr env = None)) /\
  (forall s', main Parse env s = Ret tt s' ->
     exists f text tree,
       http.Open (CompiledFileSystem s) templatePath = Ok f /\
       http.ReadAll f = Ok text /\
       Parse text = Ok tree /\
       s' = served tree s).
Proof.
  intros Hmux.
  pose proof (parseTemplate_unfold Parse s) as Hp.
  unfold templateUnavailable.
  destruct (http.Open (CompiledFileSystem s) templatePath) as [f | e0].
  2:{ split.
      - split.
        + intros [s' H]. unfold main, bind in H. rewrite Hp in H.
          discriminate.
        + intros [Hnot _]. exfalso. apply Hnot. left. now exists e0.
      - intros s' H. unfold main, bind in H. rewrite Hp in H. discriminate. }
  destruct (http.ReadAll f) as [text | e0] eqn:Hread.
  2:{ split.
      - split.
        + intros [s' H]. unfold main, bind in H. rewrite Hp in H.
          discriminate.
        + intros [Hnot _]. exfalso. apply Hnot. right. left.
          now exists f, e0.
      - intros s' H. unfold main, bind in H. rewrite Hp in H. discriminate. }
  destruct (Parse text) as [tree | e0] eqn:Hparse.
  2:{ split.
      - split.
        + intros [s' H]. unfold main, bind in H. rewrite Hp in H.
          discriminate.
        + intros [Hnot _]. exfalso. apply Hnot. right. right.
          now exists f, text, e0.
      - intros s' H. unfold main, bind in H. rewrite Hp in H. discriminate. }
  rewrite (main_after_loading Parse env s tree Hmux Hp).
  split.
  - split.
    + intros [s' H]. split; [| split].
      * intros [[e [=]] | [(f' & e & [= <-] & He)
                          | (f' & text' & e & [= <-] & Ht & He)]];
          congruence.
      * destruct (listenErr env); [discriminate | reflexivity].
      * destruct (listenErr env); [discriminate |].
        destruct (openURLErr env); [discriminate | reflexivity].
    + intros (_ & -> & ->). now eexists.
  - intros s' H. exists f, text, tree.
    destruct (listenErr env); [discriminate |].
    destruct (openURLErr env); [discriminate |].
    injection H as <-. repeat split; assumption.
Qed.

(** X2. With the template loaded, a listener that cannot start ends the
    process with exit code 1 and the log line [http.ListenAndServe: ...];
    a browser that cannot be launched ends it the same way with the line
    [browser.Open: ...], although by then the routes are registered and
    the listener is serving. *)
Theorem main_fatal_after_loading
    (Parse : string -> result (list Node)) (env : Env) (s : World) :
  DefaultServeMux s = [] ->
  ~ templateUnavailable Parse (CompiledFileSystem s) ->
  (forall err, listenErr env = Some err ->
     exists s',
       main Parse env s = Exited 1 s' /\
       logOutput s'
       = logOutput s ++ ["http.ListenAndServe: " +:+ errorText err] /\
       listening s' = listening s) /\
  (forall err, listenErr env = None -> openURLErr env = Some err ->
     exists s',
       main Parse env s = Exited 1 s' /\
       logOutput s' = logOutput s ++ ["browser.Open: " +:+ errorText err] /\
       listening s' = Some ":8080" /\
       List.map fst (DefaultServeMux s') = ["/files/"; "/thegui"] /\
       browserOpened s' = browserOpened s).
Proof.
  intros Hmux Hnot.
  pose proof (parseTemplate_unfold Parse s) as Hp.
  unfold templateUnavailable in Hnot.
  destruct (http.Open (CompiledFileSystem s) templatePath) as [f | e0];
    [| exfalso; apply Hnot; left; now exists e0].
  destruct (http.ReadAll f) as [text | e0] eqn:Hread;
    [| exfalso; apply Hnot; right; left; now exists f, e0].
  destruct (Parse text) as [tree | e0] eqn:Hparse;
    [| exfalso; apply Hnot; right; right; now exists f, text, e0].
  rewrite (main_after_loading Parse env s tree Hmux Hp).
  split.
  - intros err ->. eexists. repeat split.
  - intros err -> ->. eexists. repeat split.
Qed.

(** X3. When [parseTemplate] ends the process it does so with exit code
    1, it has added exactly one line to the log and changed nothing else,
    and the line names the step that failed and carries the text of its
    error. *)
Theorem parseTemplate_failure_log
    (Parse : string -> result (list Node)) (s s' : World) (code : Z) :
  parseTemplate Parse s = Exited code s' ->
  code = 1 /\
  exists msg,
    s' = with_logOutput (logOutput s ++ [msg]) s /\
    ((exists e,
        http.Open (CompiledFileSystem s) templatePath = Err e /\
        msg = "Failed to open <files/templates/maingui.html>: "
              +:+ errorText e) \/
     (exists f e,
        http.Open (CompiledFileSystem s) templatePath = Ok f /\
        http.ReadAll f = Err e /\
        msg = "Failed to read contents of file: " +:+ errorText e) \/
     (exists f text e,
        http.Open (CompiledFileSystem s) templatePath = Ok f /\
        http.ReadAll f = Ok text /\ Parse text = Err e /\
        msg = "Failed to parse template: " +:+ errorText e)).
Proof.
  rewrite parseTemplate_unfold.
  destruct (http.Open (CompiledFileSystem s) templatePath) as [f | e].
  2:{ intros [= <- <-]. split; [reflexivity |]. eexists.
      split; [reflexivity |]. left. now exists e. }
  destruct (http.ReadAll f) as [text | e] eqn:Hread.
  2:{ intros [= <- <-]. split; [reflexivity |]. eexists.
      split; [reflexivity |]. right. left. now exists f, e. }
  destruct (Parse text) as [tree | e] eqn:Hparse; [discriminate |].
  intros [= <- <-]. split; [reflexivity |]. eexists.
  split; [reflexivity |]. right. right. now exists f, text, e.
Qed.


(* ===================================================================== *)
(** * 23. The dispatcher, route by route                                  *)
(* ===================================================================== *)



(** A file the compiled-in file system opens and reads is sent whole. *)
Lemma serve_static_file
    (s : World) (t : Template) (r : http.Request) (f : http.File)
    (content : string) :
  Serving s t ->
  HasPrefix (http.Path r) "/files/" = true ->
  HasSuffix (http.Path r) "/index.html" = false ->
  http.Open (CompiledFileSystem s) (http.Path r) = Ok f ->
  http.ReadAll f = Ok content ->
  serve r s =
  Ret (Some (http.mkResponse http.StatusOK
               (if String.eqb (http.Method r) "HEAD" then EmptyString
                else content))) s.
Proof.
  intros (_ & _ & Hmux & Hl) Hprefix Hindex Hopen Hread.
  unfold serve. rewrite Hl.
  unfold ServeMux_ServeHTTP, bind, gets. rewrite Hmux.
  rewrite (muxMatch_files _ _ _ Hprefix).
  cbn [ServeHTTP ret]. unfold http.FileServer_ServeHTTP, http.serveFile.
  rewrite Hindex.
  destruct (HasPrefix_files _ Hprefix) as [rest Hpath].
  assert (Hslash : HasPrefix (http.Path r) "/" = true)
    by now rewrite Hpath.
  rewrite Hslash, Hopen, Hread.
  destruct (String.eqb (http.Method r) "HEAD"); reflexivity.
Qed.


(** X7. The static route gives out the template source. When [main] has
    started the process on a file system that resolves the rooted name
    [/files/templates/maingui.html] as it resolves the name
    [parseTemplate] opens, a [GET] for that path is answered with status
    200 and the very text whose parse tree is in [htmlTemplate]. *)
Theorem template_source_served
    (Parse : string -> result (list Node)) (env : Env) (s s' : World) :
  DefaultServeMux s = [] ->
  http.Open (CompiledFileSystem s) "/files/templates/maingui.html"
  = http.Open (CompiledFileSystem s) templatePath ->
  main Parse env s = Ret tt s' ->
  exists text tree,
    serve (GET "/files/templates/maingui.html") s'
    = Ret (Some (http.mkResponse http.StatusOK text)) s' /\
    Parse text = Ok tree /\
    htmlTemplate s' = Some (mkTemplate "gui" tree).
Proof.
  intros Hmux Hsame Hmain.
  pose proof (parseTemplate_unfold Parse s) as Hp.
  destruct (http.Open (CompiledFileSystem s) templatePath) as [f | e0] eqn:Hopen.
  2:{ unfold main, bind in Hmain. rewrite Hp in Hmain. discriminate. }
  destruct (http.ReadAll f) as [text | e0] eqn:Hread.
  2:{ unfold main, bind in Hmain. rewrite Hp in Hmain. discriminate. }
  destruct (Parse text) as [tree | e0] eqn:Hparse.
  2:{ unfold main, bind in Hmain. rewrite Hp in Hmain. discriminate. }
  rewrite (main_after_loading Parse env s tree Hmux Hp) in Hmain.
  destruct (listenErr env); [discriminate |].
  destruct (openURLErr env); [discriminate |].
  injection Hmain as <-. exists text, tree.
  split; [| split; [exact Hparse | reflexivity]].
  apply (serve_static_file (served tree s) (mkTemplate "gui" tree)
           (GET "/files/templates/maingui.html") f text);
    [repeat split | reflexivity | reflexivity | exact Hsame | exact Hread].
Qed.

(* ===================================================================== *)
(** * 24. Page requests                                                   *)
(* ===================================================================== *)




(** X11. Two calls of [populateGuiData] return two different objects:
    the second pointer differs from the first, both objects hold the
    fixed view model, and the second call leaves the first object as it
    is. *)
Theorem populateGuiData_no_sharing
    (s s1 s2 : World) (p1 p2 : Ptr) :
  populateGuiData s = Ret p1 s1 ->
  populateGuiData s1 = Ret p2 s2 ->
  p1 <> p2 /\
  heap s2 !! p1 = Some fixedGuiData /\
  heap s2 !! p2 = Some fixedGuiData /\
  length (heap s2) = S (S (length (heap s))).
Proof.
  rewrite (populateGuiData_eq s). intros [= <- <-].
  rewrite (populateGuiData_eq _). intros [= <- <-].
  rewrite !heap_with_heap, !length_app. cbn [length].
  split; [lia |]. split; [| split; [| lia]].
  - rewrite lookup_app_l by (rewrite length_app; cbn; lia).
    now apply list_lookup_middle.
  - apply list_lookup_middle. rewrite length_app. reflexivity.
Qed.

(* ===================================================================== *)
(** * 25. Templates and the fields of the view model                      *)
(* ===================================================================== *)

Lemma evalField_GuiData (g : GuiData) (field : string) :
  existsb (String.eqb field) GuiDataFields = true ->
  exists v, evalField (DData g) field = Ok v.
Proof.
  unfold GuiDataFields. cbn [existsb]. rewrite !orb_true_iff.
  intros H. repeat destruct H as [H | H]; try discriminate H;
    apply String.eqb_eq in H; subst field; now eexists.
Qed.

Lemma evalField_GuiData_unknown (g : GuiData) (field : string) :
  existsb (String.eqb field) GuiDataFields = false ->
  exists e, evalField (DData g) field = Err e.
Proof.
  unfold GuiDataFields. cbn [existsb]. rewrite !orb_false_iff.
  intros H. unfold evalField, fields. cbn [List.find fst].
  repeat match goal with
         | H : _ /\ _ |- _ => destruct H
         | H : String.eqb field _ = false |- _ =>
             rewrite String.eqb_sym in H; rewrite H; clear H
         end.
  now eexists.
Qed.

Lemma evalField_TableRow (r : TableRow) (field : string) :
  existsb (String.eqb field) TableRowFields = true ->
  exists s, evalField (DRow r) field = Ok (VString s).
Proof.
  unfold TableRowFields. cbn [existsb]. rewrite !orb_true_iff.
  intros H. repeat destruct H as [H | H]; try discriminate H;
    apply String.eqb_eq in H; subst field; now eexists.
Qed.

Lemma evalField_TableRow_unknown (r : TableRow) (field : string) :
  existsb (String.eqb field) TableRowFields = false ->
  exists e, evalField (DRow r) field = Err e.
Proof.
  unfold TableRowFields. cbn [existsb]. rewrite !orb_false_iff.
  intros H. unfold evalField, fields. cbn [List.find fst].
  repeat match goal with
         | H : _ /\ _ |- _ => destruct H
         | H : String.eqb field _ = false |- _ =>
             rewrite String.eqb_sym in H; rewrite H; clear H
         end.
  now eexists.
Qed.

(** The body of a [range] that is fine on rows runs to its end on every
    row. *)
Lemma walkList_row_ok (body : list Node) (r : TableRow)
    (wr : http.ResponseWriter) :
  forallb rowNodeOk body = true ->
  snd (walkList body (DRow r) wr) = None.
Proof.
  revert wr. induction body as [|n ns IH]; intros wr; [reflexivity |].
  cbn [walkList forallb]. rewrite andb_true_iff. intros [Hn Hns].
  destruct n as [text | field | field inner]; [| | discriminate Hn].
  - cbn [walk]. now apply IH.
  - cbn [walk]. destruct (evalField_TableRow r field Hn) as [s ->].
    now apply IH.
Qed.

(** The body of a [range] that refers to a field rows lack stops with an
    error on every row. *)
Lemma walkList_row_unknown (body : list Node) (r : TableRow)
    (wr : http.ResponseWriter) :
  existsb rowNodeUnknown body = true ->
  snd (walkList body (DRow r) wr) <> None.
Proof.
  revert wr. induction body as [|n ns IH]; intros wr; [discriminate |].
  cbn [walkList existsb]. rewrite orb_true_iff. intros Hbad.
  destruct (walk n (DRow r) wr) as [w1 [e|]] eqn:Hn; [discriminate |].
  destruct Hbad as [Hbad | Hbad]; [| now apply IH].
  exfalso. destruct n as [text | field | field inner];
    [discriminate Hbad | |].
  - cbn [rowNodeUnknown] in Hbad. apply negb_true_iff in Hbad.
    destruct (evalField_TableRow_unknown r field Hbad) as [e He].
    cbn [walk] in Hn. rewrite He in Hn. discriminate.
  - cbn [rowNodeUnknown] in Hbad. apply negb_true_iff in Hbad.
    destruct (evalField_TableRow_unknown r field Hbad) as [e He].
    rewrite walk_RangeNode, He in Hn. discriminate.
Qed.

Lemma walkRange_ok (body : list Node) (rows : list TableRow)
    (wr : http.ResponseWriter) :
  forallb rowNodeOk body = true ->
  snd (walkRange body rows wr) = None.
Proof.
  intros Hbody. revert wr. induction rows as [|r rest IH]; intros wr;
    [reflexivity |].
  cbn [walkRange].
  pose proof (walkList_row_ok body r wr Hbody) as Hrow.
  destruct (walkList body (DRow r) wr) as [w1 [e|]]; [discriminate Hrow |].
  apply IH.
Qed.

Lemma walkRange_unknown (body : list Node) (rows : list TableRow)
    (wr : http.ResponseWriter) :
  rows <> [] ->
  existsb rowNodeUnknown body = true ->
  snd (walkRange body rows wr) <> None.
Proof.
  destruct rows as [|r rest]; [congruence |]. intros _ Hbad.
  cbn [walkRange].
  pose proof (walkList_row_unknown body r wr Hbad) as Hrow.
  destruct (walkList body (DRow r) wr) as [w1 [e|]];
    [discriminate | now elim Hrow].
Qed.

(** A page that refers only to known fields runs to its end. *)
Lemma walkList_known_ok (tree : list Node) (g : GuiData)
    (wr : http.ResponseWriter) :
  refersToKnownFields tree = true ->
  snd (walkList tree (DData g) wr) = None.
Proof.
  unfold refersToKnownFields. revert wr.
  induction tree as [|n ns IH]; intros wr; [reflexivity |].
  cbn [walkList forallb]. rewrite andb_true_iff. intros [Hn Hns].
  destruct n as [text | field | field body].
  - cbn [walk]. now apply IH.
  - cbn [walk pageNodeOk] in *.
    destruct (evalField_GuiData g field Hn) as [v ->]. now apply IH.
  - cbn [pageNodeOk] in Hn. apply andb_true_iff in Hn as [Hf Hbody].
    apply String.eqb_eq in Hf. subst field.
    rewrite walk_RangeNode, evalField_RowsInTable.
    pose proof (walkRange_ok body (RowsInTable g) wr Hbody) as Hok.
    destruct (walkRange body (RowsInTable g) wr) as [w1 [e|]];
      [discriminate Hok |].
    now apply IH.
Qed.

(** X12. Which templates render. A template that refers only to fields
    [GuiData] and [TableRow] have, and iterates only [RowsInTable], renders
    every view model without error. On a view model with at least one row,
    a template that refers to a field [GuiData] lacks, or whose row markup
    refers to a field [TableRow] lacks, never renders without error. *)
Theorem render_succeeds_on_known_fields
    (t : Template) (g : GuiData) (wr : http.ResponseWriter) :
  (refersToKnownFields (Tree t) = true ->
   snd (ExecuteTemplate t wr (Name t) (DData g)) = None) /\
  (RowsInTable g <> [] ->
   refersToUnknownField (Tree t) = true ->
   snd (ExecuteTemplate t wr (Name t) (DData g)) <> None).
Proof.
  unfold ExecuteTemplate, refersToUnknownField.
  rewrite String.eqb_refl. generalize (Tree t) as tree. clear t.
  intros tree. split.
  - apply walkList_known_ok.
  - intros Hne. revert wr.
    induction tree as [|n ns IH]; intros wr; [discriminate |].
    cbn [walkList existsb]. rewrite orb_true_iff. intros Hbad.
    destruct (walk n (DData g) wr) as [w1 [e|]] eqn:Hn; [discriminate |].
    destruct Hbad as [Hbad | Hbad]; [| now apply IH].
    exfalso. destruct n as [text | field | field body];
      [discriminate Hbad | |].
    + cbn [pageNodeUnknown] in Hbad. apply negb_true_iff in Hbad.
      destruct (evalField_GuiData_unknown g field Hbad) as [e He].
      cbn [walk] in Hn. rewrite He in Hn. discriminate.
    + cbn [pageNodeUnknown] in Hbad. apply orb_true_iff in Hbad.
      rewrite walk_RangeNode in Hn.
      destruct Hbad as [Hbad | Hbad].
      * apply negb_true_iff in Hbad.
        destruct (evalField_GuiData_unknown g field Hbad) as [e He].
        rewrite He in Hn. discriminate.
      * apply andb_true_iff in Hbad as [Hf Hbody].
        apply String.eqb_eq in Hf. subst field.
        rewrite evalField_RowsInTable in Hn.
        apply (walkRange_unknown body (RowsInTable g) wr Hne Hbody).
        now rewrite Hn.
Qed.


(* ===================================================================== *)
(** * 26. The further properties on concrete processes                    *)
(* ===================================================================== *)

(** The template document of [siteAssets pageDocument] loads. *)
Lemma page_store_template_available :
  ~ templateUnavailable fragment.Parse
      (AssetStore.asFileSystem (AssetStore.populate (siteAssets pageDocument))).
Proof.
  intros [[e H] | [(f & e & H1 & H2) | (f & text & e & H1 & H2 & H3)]].
  - vm_compute in H. discriminate H.
  - vm_compute in H1. injection H1 as <-. vm_compute in H2. discriminate H2.
  - vm_compute in H1. injection H1 as <-. vm_compute in H2.
    injection H2 as <-. vm_compute in H3. discriminate H3.
Qed.

Lemma main_reaches_serving_iff_witness :
  DefaultServeMux
    (initWorld
       (AssetStore.asFileSystem
          (AssetStore.populate (siteAssets pageDocument)))) = [] /\
  exists tree,
    fragment.Parse pageDocument = Ok tree /\
    startedOn pageDocument
    = served tree
        (initWorld
           (AssetStore.asFileSystem
              (AssetStore.populate (siteAssets pageDocument)))).
Proof.
  split; [reflexivity |].
  destruct (main_reaches_serving_iff fragment.Parse (mkEnv None None)
              (initWorld
                 (AssetStore.asFileSystem
                    (AssetStore.populate (siteAssets pageDocument))))
              eq_refl) as [_ Hstate].
  destruct (Hstate (startedOn pageDocument)) as (f & text & tree & Ho & Hr & Hp & Hs).
  - vm_compute. reflexivity.
  - exists tree. split; [| exact Hs].
    vm_compute in Ho. injection Ho as <-. vm_compute in Hr.
    injection Hr as <-. exact Hp.
Defined.

Lemma main_fatal_after_loading_witness :
  (DefaultServeMux
     (initWorld
        (AssetStore.asFileSystem
           (AssetStore.populate (siteAssets pageDocument)))) = [] /\
   ~ templateUnavailable fragment.Parse
       (CompiledFileSystem
          (initWorld
             (AssetStore.asFileSystem
                (AssetStore.populate (siteAssets pageDocument))))) /\
   openURLErr (mkEnv None (Some (ErrMsg "exec: no browser found")))
   = Some (ErrMsg "exec: no browser found")) /\
  exists s',
    main fragment.Parse (mkEnv None (Some (ErrMsg "exec: no browser found")))
      (initWorld
         (AssetStore.asFileSystem
            (AssetStore.populate (siteAssets pageDocument))))
    = Exited 1 s' /\
    logOutput s' = ["browser.Open: exec: no browser found"] /\
    listening s' = Some ":8080".
Proof.
  split; [split; [reflexivity | split; [exact page_store_template_available
                                       | reflexivity]] |].
  destruct (proj2 (main_fatal_after_loading fragment.Parse
                     (mkEnv None (Some (ErrMsg "exec: no browser found")))
                     (initWorld
                        (AssetStore.asFileSystem
                           (AssetStore.populate (siteAssets pageDocument))))
                     eq_refl page_store_template_available)
              (ErrMsg "exec: no browser found") eq_refl eq_refl)
    as (s' & Hmain & Hlog & Hl & _).
  exists s'. repeat split; assumption.
Defined.

Lemma parseTemplate_failure_log_witness :
  exists s',
    parseTemplate fragment.Parse (initWorld unreadableFS) = Exited 1 s' /\
    logOutput s' = ["Failed to read contents of file: unexpected EOF"].
Proof.
  assert (H : parseTemplate fragment.Parse (initWorld unreadableFS)
              = Exited 1
                  (with_logOutput
                     ["Failed to read contents of file: unexpected EOF"]
                     (initWorld unreadableFS)))
    by (vm_compute; reflexivity).
  eexists. split; [exact H |].
  destruct (parseTemplate_failure_log fragment.Parse _ _ _ H)
    as (_ & msg & Hs' & _).
  reflexivity.
Defined.



Lemma template_source_served_witness :
  (DefaultServeMux
     (initWorld
        (AssetStore.asFileSystem
           (AssetStore.populate (siteAssets pageDocument)))) = [] /\
   http.Open
     (AssetStore.asFileSystem (AssetStore.populate (siteAssets pageDocument)))
     "/files/templates/maingui.html"
   = http.Open
       (AssetStore.asFileSystem
          (AssetStore.populate (siteAssets pageDocument)))
       templatePath /\
   main fragment.Parse (mkEnv None None)
     (initWorld
        (AssetStore.asFileSystem
           (AssetStore.populate (siteAssets pageDocument))))
   = Ret tt (startedOn pageDocument)) /\
  serve (GET "/files/templates/maingui.html") (startedOn pageDocument)
  = Ret (Some (http.mkResponse http.StatusOK pageDocument))
      (startedOn pageDocument).
Proof.
  assert (Hsame : http.Open
                    (AssetStore.asFileSystem
                       (AssetStore.populate (siteAssets pageDocument)))
                    "/files/templates/maingui.html"
                  = http.Open
                      (AssetStore.asFileSystem
                         (AssetStore.populate (siteAssets pageDocument)))
                      templatePath) by (vm_compute; reflexivity).
  assert (Hmain : main fragment.Parse (mkEnv None None)
                    (initWorld
                       (AssetStore.asFileSystem
                          (AssetStore.populate (siteAssets pageDocument))))
                  = Ret tt (startedOn pageDocument))
    by (vm_compute; reflexivity).
  split; [split; [reflexivity | split; [exact Hsame | exact Hmain]] |].
  destruct (template_source_served fragment.Parse (mkEnv None None)
              (initWorld
                 (AssetStore.asFileSystem
                    (AssetStore.populate (siteAssets pageDocument))))
              (startedOn pageDocument)
              eq_refl Hsame Hmain) as (text & tree & Hserve & _ & _).
  assert (Htext : text = pageDocument).
  { pose proof Hserve as Hrun. vm_compute in Hrun.
    injection Hrun as Hrun. now subst text. }
  rewrite Htext in Hserve. exact Hserve.
Defined.




Lemma populateGuiData_no_sharing_witness :
  (populateGuiData (initWorld unreadableFS)
   = Ret 0%nat (with_heap [fixedGuiData] (initWorld unreadableFS)) /\
   populateGuiData (with_heap [fixedGuiData] (initWorld unreadableFS))
   = Ret 1%nat
       (with_heap [fixedGuiData; fixedGuiData] (initWorld unreadableFS))) /\
  0%nat <> 1%nat.
Proof.
  assert (H1 : populateGuiData (initWorld unreadableFS)
               = Ret 0%nat (with_heap [fixedGuiData] (initWorld unreadableFS)))
    by (vm_compute; reflexivity).
  assert (H2 : populateGuiData
                 (with_heap [fixedGuiData] (initWorld unreadableFS))
               = Ret 1%nat
                   (with_heap [fixedGuiData; fixedGuiData]
                      (initWorld unreadableFS)))
    by (vm_compute; reflexivity).
  split; [split; [exact H1 | exact H2] |].
  exact (proj1 (populateGuiData_no_sharing _ _ _ _ _ H1 H2)).
Defined.



Lemma render_succeeds_on_known_fields_witness :
  (refersToKnownFields (Tree pageTemplate) = true /\
   snd (ExecuteTemplate pageTemplate http.newResponseWriter
          (Name pageTemplate) (DData fixedGuiData)) = None) /\
  (RowsInTable fixedGuiData <> [] /\
   refersToUnknownField (Tree staleTemplate) = true /\
   snd (ExecuteTemplate staleTemplate http.newResponseWriter
          (Name staleTemplate) (DData fixedGuiData)) <> None).
Proof.
  assert (Hk : refersToKnownFields (Tree pageTemplate) = true)
    by (vm_compute; reflexivity).
  assert (Hr : RowsInTable fixedGuiData <> []) by discriminate.
  assert (Hu : refersToUnknownField (Tree staleTemplate) = true)
    by (vm_compute; reflexivity).
  split.
  - split; [exact Hk |].
    exact (proj1 (render_succeeds_on_known_fields pageTemplate fixedGuiData
                    http.newResponseWriter) Hk).
  - split; [exact Hr | split; [exact Hu |]].
    exact (proj2 (render_succeeds_on_known_fields staleTemplate fixedGuiData
                    http.newResponseWriter) Hr Hu).
Defined.
